(** * The swarm decision engine (backend/src/swarm/decision_engine.py)

    A shallow embedding of [SwarmDecisionEngine] and the properties of its
    three public operations, [make_decision],
    [make_decision_with_custom_people] and [get_engine_status].

    The engine is an orchestration shell.  The four classes it drives
    ([PriorityAgent], [ResourceAgent], [RiskAgent], [Coordinator]) live in
    the [agents] package, which is not part of the sources at hand; they
    enter the development as an [environment], and every statement about
    the engine holds for every environment. *)

From Stdlib Require Import ZArith String Floats.PrimFloat.
From stdpp Require Import base option list gmap strings pretty.

Set Warnings "-inexact-float,-register-all,-notation-overridden".

Open Scope string_scope.

(** ** Python values *)

(** The objects that travel through the engine: tasks, people, agent
    results and decisions are [Dict[str, Any]]. *)
Inductive value : Type :=
| VNone
| VBool (b : bool)
| VInt (z : Z)
| VFloat (f : float)
| VStr (s : string)
| VList (l : list value)
| VDict (d : gmap string value).

(** [d.get(key, default)] *)
Definition dict_get (d : gmap string value) (key : string) (default : value) : value :=
  match d !! key with
  | Some v => v
  | None => default
  end.

(** A dict display [{k1: v1, ..., kn: vn}]: the items are stored from left
    to right. *)
Definition dict_display (items : list (string * value)) : gmap string value :=
  fold_left (fun d kv => <[kv.1 := kv.2]> d) items ∅.

(** [d.update(other)]: every key of [other] is (re)bound in [d]. *)
Definition dict_update (d other : gmap string value) : gmap string value :=
  other ∪ d.

(** [type(v).__name__] *)
Definition type_name (v : value) : string :=
  match v with
  | VNone => "NoneType"
  | VBool _ => "bool"
  | VInt _ => "int"
  | VFloat _ => "float"
  | VStr _ => "str"
  | VList _ => "list"
  | VDict _ => "dict"
  end.

(** ** Exceptions and outcomes *)

(** An instance of [Exception], the class the engine's handler names:
    its class and the text [str(e)] gives.  On the machine defined first
    every exception is one of these; the exceptions that
    [except Exception] does not catch are on the machine of
    [Module Concrete].  A collaborator that never returns is outside
    both. *)
Record exn : Type := Exn { exn_class : string; exn_str : string }.

Inductive result (A : Type) : Type :=
| Ok (a : A)
| Raise (e : exn).
Arguments Ok {A} a.
Arguments Raise {A} e.

(** [v.update(other)] on an arbitrary object: only a dict has the method. *)
Definition AttributeError_update (v : value) : exn :=
  Exn "AttributeError" ("'" +:+ type_name v +:+ "' object has no attribute 'update'").

(** ** The machine state *)

(** What a decision cycle can read and change: the world of the
    collaborators (their private state, the stores behind them, the
    clock), the [available_people] attribute of the resource agent
    ([None] when the object has no such attribute) and the lines
    written by [print]. *)
Record state (W : Type) : Type := State {
  world : W;
  available_people : option value;
  console : list string
}.
Arguments State {W} world available_people console.
Arguments world {W} s.
Arguments available_people {W} s.
Arguments console {W} s.

(** Computations that read and write the state and may raise. *)
Definition M (W A : Type) : Type := state W -> result A * state W.

Definition ret {W A} (a : A) : M W A := fun s => (Ok a, s).

Definition bind {W A B} (m : M W A) (k : A -> M W B) : M W B :=
  fun s =>
    match m s with
    | (Ok a, s') => k a s'
    | (Raise e, s') => (Raise e, s')
    end.

Definition raise {W A} (e : exn) : M W A := fun s => (Raise e, s).

(** [try: body except Exception as e: handler], on a machine where every
    exception is an instance of [Exception] and [print] cannot fail, so
    that the clause catches whatever the body raises.
    [Concrete.try_except] is the clause without these two provisos, and
    [concrete_agrees] shows that the two coincide under them. *)
Definition try_except {W A} (body : M W A) (handler : exn -> M W A) : M W A :=
  fun s =>
    match body s with
    | (Ok a, s') => (Ok a, s')
    | (Raise e, s') => handler e s'
    end.

Notation "'let!' x ':=' c 'in' k" := (bind c (fun x => k))
  (at level 10, x name, c at level 100, k at level 200).
Notation "c ';;;' k" := (bind c (fun _ => k))
  (at level 100, k at level 200, right associativity).

Definition print {W} (line : string) : M W unit :=
  fun s => (Ok tt, State (world s) (available_people s) (console s ++ [line])).

(** [hasattr(self.resource_agent, 'available_people')] *)
Definition hasattr_available_people {W} : M W bool :=
  fun s => (Ok (bool_decide (is_Some (available_people s))), s).

(** [self.resource_agent.available_people = people] *)
Definition set_available_people {W} (people : value) : M W unit :=
  fun s => (Ok tt, State (world s) (Some people) (console s)).

(** A method of a collaborator that holds no reference to the resource
    agent: it works on the world alone. *)
Definition call {W A} (method : W -> result A * W) : M W A :=
  fun s =>
    let (r, w) := method (world s) in
    (r, State w (available_people s) (console s)).

(** A method of the resource agent: it also sees, and may rebind, its own
    [available_people]. *)
Definition call_resource {W A}
    (method : option value * W -> result A * (option value * W)) : M W A :=
  fun s =>
    let '(r, (a, w)) := method (available_people s, world s) in
    (r, State w a (console s)).

(** ** The environment of the engine *)

(** Modelled from the spec: the collaborator classes of the [agents]
    package are not among the sources.  A collaborator has a name, which
    [get_engine_status] reads directly, and may have a version string,
    which it reads through [getattr] with a default. *)
Record collaborator : Type := Collaborator {
  agent_name : string;
  agent_version : option string
}.

(** The classes imported from [agents] and the two services of the Python
    runtime the engine relies on: [repr] and the clock behind
    [datetime.now().isoformat()]. *)
Record environment (W : Type) : Type := Environment {
  PriorityAgent : collaborator;
  ResourceAgent : collaborator;
  RiskAgent : collaborator;
  Coordinator : collaborator;
  analyze_priority : gmap string value -> W -> result value * W;
  find_suitable_resources :
    gmap string value -> option value * W -> result value * (option value * W);
  assess_risks : gmap string value -> W -> result value * W;
  coordinate_decision :
    gmap string value -> gmap string value -> W -> result value * W;
  isoformat_now : W -> string;
  py_repr : value -> string
}.
Arguments PriorityAgent {W} e.
Arguments ResourceAgent {W} e.
Arguments RiskAgent {W} e.
Arguments Coordinator {W} e.
Arguments analyze_priority {W} e task w.
Arguments find_suitable_resources {W} e task aw.
Arguments assess_risks {W} e task w.
Arguments coordinate_decision {W} e task agent_results w.
Arguments isoformat_now {W} e w.
Arguments py_repr {W} e v.

(** ** The engine *)

Record engine : Type := Engine {
  name : string;
  version : string;
  priority_agent : collaborator;
  resource_agent : collaborator;
  risk_agent : collaborator;
  coordinator : collaborator;
  agents : list collaborator
}.

Section SwarmDecisionEngine.

Context {W : Type} (E : environment W).

(** [str(v)], as an f-string applies it to a replacement field: a string
    is itself, any other value of the model is its [repr]. *)
Definition py_str (v : value) : string :=
  match v with
  | VStr s => s
  | _ => py_repr E v
  end.

(** [datetime.now().isoformat()] *)
Definition datetime_now_isoformat : M W string :=
  fun s => (Ok (isoformat_now E (world s)), s).

(** The object [__init__] leaves behind.  [neo4j_manager] and [config] are
    only handed on to the agents' constructors. *)
Definition new_engine : engine :=
  let priority_agent := PriorityAgent E in
  let resource_agent := ResourceAgent E in
  let risk_agent := RiskAgent E in
  {| name := "Swarm Decision Engine";
     version := "1.0.0";
     priority_agent := priority_agent;
     resource_agent := resource_agent;
     risk_agent := risk_agent;
     coordinator := Coordinator E;
     agents := [priority_agent; resource_agent; risk_agent] |}.

Definition __init__ : M W engine :=
  let self := new_engine in
  print "🐝 Swarm Decision Engine 初始化完成" ;;;
  print ("📋 載入 " +:+ pretty (length (agents self)) +:+ " 個專家代理人") ;;;
  ret self.

Definition _get_default_people : list value :=
  [ VDict (dict_display
      [ ("id", VStr "PERSON001");
        ("name", VStr "Alice Chen");
        ("email", VStr "alice@company.com");
        ("skills", VList [VStr "Python"; VStr "Flask"; VStr "Database"; VStr "Frontend"]);
        ("availability", VFloat 0.8);
        ("current_workload", VFloat 0.6);
        ("experience_level", VStr "senior");
        ("department", VStr "Engineering") ]);
    VDict (dict_display
      [ ("id", VStr "PERSON002");
        ("name", VStr "Bob Wang");
        ("email", VStr "bob@company.com");
        ("skills", VList [VStr "Python"; VStr "Neo4j"; VStr "AI/ML"; VStr "System Design"]);
        ("availability", VFloat 0.9);
        ("current_workload", VFloat 0.4);
        ("experience_level", VStr "senior");
        ("department", VStr "Engineering") ]);
    VDict (dict_display
      [ ("id", VStr "PERSON003");
        ("name", VStr "Carol Liu");
        ("email", VStr "carol@company.com");
        ("skills", VList [VStr "Project Management"; VStr "Requirements Analysis";
                          VStr "Documentation"]);
        ("availability", VFloat 0.7);
        ("current_workload", VFloat 0.5);
        ("experience_level", VStr "mid");
        ("department", VStr "Product") ]);
    VDict (dict_display
      [ ("id", VStr "PERSON004");
        ("name", VStr "David Zhang");
        ("email", VStr "david@company.com");
        ("skills", VList [VStr "System Design"; VStr "Architecture"; VStr "Performance"]);
        ("availability", VFloat 0.6);
        ("current_workload", VFloat 0.7);
        ("experience_level", VStr "senior");
        ("department", VStr "Engineering") ]) ].

(** [if people is None: people = self._get_default_people()] *)
Definition resolve_people (people : option (list value)) : list value :=
  match people with
  | None => _get_default_people
  | Some people => people
  end.

(** The dict handed to [final_decision.update]. *)
Definition engine_metadata (self : engine) (people : list value) : gmap string value :=
  dict_display
    [ ("swarm_engine", VStr (name self));
      ("engine_version", VStr (version self));
      ("decision_method", VStr "swarm_intelligence");
      ("agents_involved", VInt (Z.of_nat (length (agents self))));
      ("people_considered", VInt (Z.of_nat (length people))) ].

(** [final_decision.update({...})] on whatever the coordinator returned. *)
Definition attach_metadata (self : engine) (people : list value)
    (final_decision : value) : M W (gmap string value) :=
  match final_decision with
  | VDict d => ret (dict_update d (engine_metadata self people))
  | v => raise (AttributeError_update v)
  end.

(** The body of the [try] statement of [make_decision]. *)
Definition make_decision_try (self : engine) (task : gmap string value)
    (people : option (list value)) : M W (gmap string value) :=
  let people := resolve_people people in
  let! has := hasattr_available_people in
  (if has : bool then set_available_people (VList people) else ret tt) ;;;
  print ("🎯 開始為任務 " +:+ py_str (dict_get task "id" (VStr "unknown")) +:+ " 進行群體決策") ;;;
  let agent_results : gmap string value := ∅ in
  print "📊 執行優先權分析..." ;;;
  let! priority_result := call (analyze_priority E task) in
  let agent_results := <["priority" := priority_result]> agent_results in
  print "👤 執行資源配對分析..." ;;;
  let! resource_result := call_resource (find_suitable_resources E task) in
  let agent_results := <["resources" := resource_result]> agent_results in
  print "⚠️ 執行風險評估..." ;;;
  let! risk_result := call (assess_risks E task) in
  let agent_results := <["risks" := risk_result]> agent_results in
  print "🤝 執行協調決策..." ;;;
  let! final_decision := call (coordinate_decision E task agent_results) in
  let! final_decision := attach_metadata self people final_decision in
  print ("✅ 決策完成，信心指數: " +:+ py_str (dict_get final_decision "confidence" (VStr "N/A"))) ;;;
  ret final_decision.

(** The dict display the [except] clause returns; [created_at] is the
    value of [datetime.now().isoformat()]. *)
Definition degraded (self : engine) (task : gmap string value) (e : exn)
    (created_at : string) : gmap string value :=
  dict_display
    [ ("decision_id", VStr ("DEC_" +:+ py_str (dict_get task "id" (VStr "unknown")) +:+ "_ERROR"));
      ("task_id", dict_get task "id" (VStr "unknown"));
      ("recommendation", VStr "群體決策失敗，建議人工評估");
      ("confidence", VFloat 0.1);
      ("risk_level", VStr "high");
      ("assigned_to", VStr "待分配");
      ("error", VStr (exn_str e));
      ("swarm_engine", VStr (name self));
      ("created_at", VStr created_at) ].

(** The [except Exception as e] clause of [make_decision]. *)
Definition make_decision_except (self : engine) (task : gmap string value)
    (e : exn) : M W (gmap string value) :=
  print ("❌ 決策過程發生錯誤: " +:+ exn_str e) ;;;
  let! created_at := datetime_now_isoformat in
  ret (degraded self task e created_at).

Definition make_decision (self : engine) (task : gmap string value)
    (people : option (list value)) : M W (gmap string value) :=
  try_except (make_decision_try self task people) (make_decision_except self task).

(** [getattr(agent, 'version', 'unknown')] *)
Definition getattr_version (agent : collaborator) : string :=
  match agent_version agent with
  | Some v => v
  | None => "unknown"
  end.

Definition get_engine_status (self : engine) : M W (gmap string value) :=
  ret (dict_display
    [ ("name", VStr (name self));
      ("version", VStr (version self));
      ("agents_count", VInt (Z.of_nat (length (agents self))));
      ("agents_status",
        VList (map (fun agent =>
                      VDict (dict_display
                        [ ("name", VStr (agent_name agent));
                          ("version", VStr (getattr_version agent));
                          ("status", VStr "active") ]))
                   (agents self)));
      ("coordinator_status",
        VDict (dict_display
          [ ("name", VStr (agent_name (coordinator self)));
            ("version", VStr (getattr_version (coordinator self)));
            ("status", VStr "active") ])) ]).

(** The [people] parameter is annotated [List[...]]; whatever is passed
    goes to [make_decision] unchanged. *)
Definition make_decision_with_custom_people (self : engine)
    (task : gmap string value) (people : option (list value)) : M W (gmap string value) :=
  make_decision self task people.

End SwarmDecisionEngine.

(** ** Paths through a decision cycle *)

(** The keys [make_decision] writes when it attaches the engine metadata. *)
Definition metadata_keys : list string :=
  ["swarm_engine"; "engine_version"; "decision_method"; "agents_involved";
   "people_considered"].

(** What [available_people] holds once the pool has been handed over: the
    assignment is guarded by [hasattr]. *)
Definition handed_over (attr : option value) (pool : list value) : option value :=
  match attr with
  | Some _ => Some (VList pool)
  | None => None
  end.

(** The dict of opinions the coordinator receives. *)
Definition collected (priority_result resource_result risk_result : value)
    : gmap string value :=
  <["risks" := risk_result]>
    (<["resources" := resource_result]> (<["priority" := priority_result]> ∅)).

Section Cycle.

Context {W : Type} (E : environment W).

(** The three scoring collaborators and the coordinator all return, and
    the coordinator returns a dict [d]; [attr] and [w] are the attribute
    and the world the cycle starts from, [attr'] and [w'] the ones it
    ends with. *)
Inductive cycle_succeeds (task : gmap string value) (pool : list value)
    (attr : option value) (w : W)
    : gmap string value -> option value -> W -> Prop :=
| cycle_ok pr w1 rr attr' w2 kr w3 d w' :
    analyze_priority E task w = (Ok pr, w1) ->
    find_suitable_resources E task (handed_over attr pool, w1) = (Ok rr, (attr', w2)) ->
    assess_risks E task w2 = (Ok kr, w3) ->
    coordinate_decision E task (collected pr rr kr) w3 = (Ok (VDict d), w') ->
    cycle_succeeds task pool attr w d attr' w'.

(** A collaborator call or the coordinator merge raises [e], or the
    coordinator returns an object the metadata cannot be attached to. *)
Inductive cycle_fails (task : gmap string value) (pool : list value)
    (attr : option value) (w : W)
    : exn -> option value -> W -> Prop :=
| priority_raises e w' :
    analyze_priority E task w = (Raise e, w') ->
    cycle_fails task pool attr w e (handed_over attr pool) w'
| resources_raise pr w1 e attr' w' :
    analyze_priority E task w = (Ok pr, w1) ->
    find_suitable_resources E task (handed_over attr pool, w1) = (Raise e, (attr', w')) ->
    cycle_fails task pool attr w e attr' w'
| risks_raise pr w1 rr attr' w2 e w' :
    analyze_priority E task w = (Ok pr, w1) ->
    find_suitable_resources E task (handed_over attr pool, w1) = (Ok rr, (attr', w2)) ->
    assess_risks E task w2 = (Raise e, w') ->
    cycle_fails task pool attr w e attr' w'
| coordinator_raises pr w1 rr attr' w2 kr w3 e w' :
    analyze_priority E task w = (Ok pr, w1) ->
    find_suitable_resources E task (handed_over attr pool, w1) = (Ok rr, (attr', w2)) ->
    assess_risks E task w2 = (Ok kr, w3) ->
    coordinate_decision E task (collected pr rr kr) w3 = (Raise e, w') ->
    cycle_fails task pool attr w e attr' w'
| update_raises pr w1 rr attr' w2 kr w3 v w' :
    analyze_priority E task w = (Ok pr, w1) ->
    find_suitable_resources E task (handed_over attr pool, w1) = (Ok rr, (attr', w2)) ->
    assess_risks E task w2 = (Ok kr, w3) ->
    coordinate_decision E task (collected pr rr kr) w3 = (Ok v, w') ->
    (forall d, v <> VDict d) ->
    cycle_fails task pool attr w (AttributeError_update v) attr' w'.

End Cycle.

(** ** A resource agent that records what it reads *)

(** The same environment, with a log added to the world: on entry,
    [find_suitable_resources] appends the [available_people] it finds.
    Nothing else reads or writes the log. *)
Definition observing {W} (E : environment W) : environment (W * list (option value)) :=
  {| PriorityAgent := PriorityAgent E;
     ResourceAgent := ResourceAgent E;
     RiskAgent := RiskAgent E;
     Coordinator := Coordinator E;
     analyze_priority := fun task '(w, seen) =>
       let (r, w') := analyze_priority E task w in (r, (w', seen));
     find_suitable_resources := fun task '(attr, (w, seen)) =>
       let '(r, (attr', w')) := find_suitable_resources E task (attr, w) in
       (r, (attr', (w', (seen ++ [attr])%list)));
     assess_risks := fun task '(w, seen) =>
       let (r, w') := assess_risks E task w in (r, (w', seen));
     coordinate_decision := fun task agent_results '(w, seen) =>
       let (r, w') := coordinate_decision E task agent_results w in (r, (w', seen));
     isoformat_now := fun '(w, _) => isoformat_now E w;
     py_repr := py_repr E |}.

(** Forgetting the log. *)
Definition forget_log {W} (st : state (W * list (option value))) : state W :=
  State (world st).1 (available_people st) (console st).

(** ** Collaborators that record their calls *)

(** A call of a collaborator method, with the arguments it was given;
    for the resource agent, also the [available_people] it found. *)
Inductive event : Type :=
| CallPriority (task : gmap string value)
| CallResources (task : gmap string value) (attr : option value)
| CallRisks (task : gmap string value)
| CallCoordinator (task agent_results : gmap string value).

Definition event_name (ev : event) : string :=
  match ev with
  | CallPriority _ => "analyze_priority"
  | CallResources _ _ => "find_suitable_resources"
  | CallRisks _ => "assess_risks"
  | CallCoordinator _ _ => "coordinate_decision"
  end.

(** The same environment, with a trace added to the world: on entry,
    every method appends the call that reached it.  Nothing else reads
    or writes the trace. *)
Definition tracing {W} (E : environment W) : environment (W * list event) :=
  {| PriorityAgent := PriorityAgent E;
     ResourceAgent := ResourceAgent E;
     RiskAgent := RiskAgent E;
     Coordinator := Coordinator E;
     analyze_priority := fun task '(w, trace) =>
       let (r, w') := analyze_priority E task w in
       (r, (w', (trace ++ [CallPriority task])%list));
     find_suitable_resources := fun task '(attr, (w, trace)) =>
       let '(r, (attr', w')) := find_suitable_resources E task (attr, w) in
       (r, (attr', (w', (trace ++ [CallResources task attr])%list)));
     assess_risks := fun task '(w, trace) =>
       let (r, w') := assess_risks E task w in
       (r, (w', (trace ++ [CallRisks task])%list));
     coordinate_decision := fun task agent_results '(w, trace) =>
       let (r, w') := coordinate_decision E task agent_results w in
       (r, (w', (trace ++ [CallCoordinator task agent_results])%list));
     isoformat_now := fun '(w, _) => isoformat_now E w;
     py_repr := py_repr E |}.

(** Forgetting the trace. *)
Definition forget_trace {W} (st : state (W * list event)) : state W :=
  State (world st).1 (available_people st) (console st).

(** The lines [make_decision] prints on its way through a cycle, up to
    the call of the coordinator. *)
Definition progress_lines {W} (E : environment W) (task : gmap string value)
    : list string :=
  [ "🎯 開始為任務 " +:+ py_str E (dict_get task "id" (VStr "unknown")) +:+ " 進行群體決策";
    "📊 執行優先權分析...";
    "👤 執行資源配對分析...";
    "⚠️ 執行風險評估...";
    "🤝 執行協調決策..." ].

(** A failed call as the console shows it: the call returns, and what
    it has added to the console is the first [steps] progress lines and
    the line of the handler with the text of [e]. *)
Definition prints_then_degrades {W} (E : environment W) (self : engine)
    (task : gmap string value) (people : option (list value)) (st : state W)
    (steps : nat) (e : exn) : Prop :=
  exists d st',
    make_decision E self task people st = (Ok d, st') /\
    console st'
    = (console st ++ take steps (progress_lines E task) ++
       ["❌ 決策過程發生錯誤: " +:+ exn_str e])%list.

(** The keys of the dict the [except] clause returns. *)
Definition degraded_keys : gset string :=
  list_to_set
    ["decision_id"; "task_id"; "recommendation"; "confidence"; "risk_level";
     "assigned_to"; "error"; "swarm_engine"; "created_at"].

(** ** Vocabulary of the statements *)

(** [s.endswith(suffix)] *)
Definition ends_with (s suffix : string) : Prop :=
  exists prefix, s = prefix +:+ suffix.

(** The entry [get_engine_status] reports for a collaborator: its name, its
    version or the sentinel, and the liveness marker. *)
Definition is_status_entry (agent : collaborator) (entry : value) : Prop :=
  exists d,
    entry = VDict d /\
    d !! "name" = Some (VStr (agent_name agent)) /\
    d !! "version"
      = Some (VStr (match agent_version agent with Some v => v | None => "unknown" end)) /\
    d !! "status" = Some (VStr "active").

(** Modelled from the spec: the [Coordinator] class (agents/coordinator.py)
    is not among the sources.  The data model makes [task_id] a required
    field of the Decision that [coordinate_decision] returns, and the
    scenarios expect it to be the identifier of the task that was
    decided. *)
Definition coordinator_names_task (task d : gmap string value) : Prop :=
  is_Some (task !! "id") /\ d !! "task_id" = task !! "id".

(** ** Scenarios *)

Module Scenario.

(** [repr] of the scalars the scenarios format. *)
Definition repr_scalar (v : value) : string :=
  match v with
  | VNone => "None"
  | VBool true => "True"
  | VBool false => "False"
  | VInt z => pretty z
  | _ => "<object>"
  end.

(** Collaborators that answer from a script, whatever the task.  The
    world counts the calls made so far, and the clock shows that count
    as seconds. *)
Definition scripted (has_version : bool)
    (priority resources risks merged : result value) : environment nat :=
  let version := if has_version then Some "0.9.0" else None in
  {| PriorityAgent := Collaborator "Priority Agent" version;
     ResourceAgent := Collaborator "Resource Agent" version;
     RiskAgent := Collaborator "Risk Agent" version;
     Coordinator := Collaborator "Coordinator" None;
     analyze_priority := fun _ w => (priority, S w);
     find_suitable_resources := fun _ '(attr, w) => (resources, (attr, S w));
     assess_risks := fun _ w => (risks, S w);
     coordinate_decision := fun _ _ w => (merged, S w);
     isoformat_now := fun w => "2024-05-01T09:00:0" +:+ pretty w;
     py_repr := repr_scalar |}.

Definition opinion (field : string) (v : value) : result value :=
  Ok (VDict (dict_display [(field, v)])).

(** A coordinator's dict that names the task and labels its own merge
    strategy under [decision_method]. *)
Definition merged_T1 : gmap string value :=
  dict_display
    [ ("decision_id", VStr "DEC_T1");
      ("task_id", VStr "T1");
      ("recommendation", VStr "assign");
      ("confidence", VFloat 0.8);
      ("risk_level", VStr "low");
      ("assigned_to", VStr "PERSON002");
      ("decision_method", VStr "weighted_vote") ].

(** All four collaborators answer. *)
Definition all_answer : environment nat :=
  scripted true
    (opinion "priority_score" (VInt 3))
    (opinion "best_match" (VStr "PERSON002"))
    (opinion "risk_level" (VStr "low"))
    (Ok (VDict merged_T1)).

(** The resource agent fails on [raise ValueError()]: an exception
    without a message. *)
Definition resources_fail : environment nat :=
  scripted false
    (opinion "priority_score" (VInt 3))
    (Raise (Exn "ValueError" ""))
    (opinion "risk_level" (VStr "low"))
    (Ok (VDict merged_T1)).

Definition task_T1 : gmap string value := dict_display [("id", VStr "T1")].

Definition one_person : list value :=
  [VDict (dict_display [("id", VStr "PERSON900"); ("name", VStr "Erin Wu")])].

(** A fresh engine whose resource agent has the pool attribute, bound
    to an empty list. *)
Definition with_pool : state nat := State 0%nat (Some (VList [])) [].

(** The priority agent fails before anyone else is asked. *)
Definition priority_fails : environment nat :=
  scripted true
    (Raise (Exn "KeyError" "'deadline'"))
    (opinion "best_match" (VStr "PERSON002"))
    (opinion "risk_level" (VStr "low"))
    (Ok (VDict merged_T1)).

(** The coordinator returns [None] instead of a dict. *)
Definition merge_returns_None : environment nat :=
  scripted true
    (opinion "priority_score" (VInt 3))
    (opinion "best_match" (VStr "PERSON002"))
    (opinion "risk_level" (VStr "low"))
    (Ok VNone).

(** A task whose [id] is a number. *)
Definition task_7 : gmap string value :=
  dict_display [("id", VInt 7); ("title", VStr "Migrate the graph store")].

End Scenario.

(** ** The same method on a machine with more in it *)

(** The machine above leaves three things out, each on purpose: every
    exception in it is an instance of [Exception], [print] always
    succeeds, and a list is its contents.  The machine of this module has
    them: an exception may be one that [except Exception] does not catch,
    [sys.stdout] may refuse a line, and a list is an object of a heap,
    known by its address.  [make_decision] is embedded a second time on
    it, statement by statement. *)
Module Concrete.

(** What [raise] carries. *)
Inductive raised : Type :=
| Exception (e : exn)
    (** an instance of [Exception] *)
| BaseException (e : exn)
    (** any other instance of [BaseException]: [KeyboardInterrupt],
        [SystemExit], [GeneratorExit] *).

Inductive outcome (A : Type) : Type :=
| Returns (a : A)
| Raises (r : raised).
Arguments Returns {A} a.
Arguments Raises {A} r.

(** What an attribute or a variable is bound to: the list object at an
    address of the heap, or some other object, taken by value. *)
Inductive slot : Type :=
| Ref (address : nat)
| Val (v : value).

(** The heap holds the list objects, in the order they were created;
    none of them is changed while a call runs. *)
Record machine (W : Type) : Type := Machine {
  world : W;
  heap : list (list value);
  available_people : option slot;
  console : list string
}.
Arguments Machine {W} world heap available_people console.
Arguments world {W} m.
Arguments heap {W} m.
Arguments available_people {W} m.
Arguments console {W} m.

Record environment (W : Type) : Type := Environment {
  analyze_priority : gmap string value -> W -> outcome value * W;
  find_suitable_resources :
    gmap string value -> option slot * list (list value) * W
    -> outcome value * (option slot * W);
  assess_risks : gmap string value -> W -> outcome value * W;
  coordinate_decision :
    gmap string value -> gmap string value -> W -> outcome value * W;
  isoformat_now : W -> string;
  py_repr : value -> string;
  (** [sys.stdout.write(line)]: [None] when the line is written *)
  stdout_write : string -> W -> option raised
}.
Arguments analyze_priority {W} e task w.
Arguments find_suitable_resources {W} e task ahw.
Arguments assess_risks {W} e task w.
Arguments coordinate_decision {W} e task agent_results w.
Arguments isoformat_now {W} e w.
Arguments py_repr {W} e v.
Arguments stdout_write {W} e line w.

Definition M (W A : Type) : Type := machine W -> outcome A * machine W.

Definition ret {W A} (a : A) : M W A := fun s => (Returns a, s).

Definition bind {W A B} (m : M W A) (k : A -> M W B) : M W B :=
  fun s =>
    match m s with
    | (Returns a, s') => k a s'
    | (Raises r, s') => (Raises r, s')
    end.

Definition raise {W A} (r : raised) : M W A := fun s => (Raises r, s).

(** [try: body except Exception as e: handler]: an exception that is
    not an instance of [Exception] passes through, and so does whatever
    the handler raises. *)
Definition try_except {W A} (body : M W A) (handler : exn -> M W A) : M W A :=
  fun s =>
    match body s with
    | (Returns a, s') => (Returns a, s')
    | (Raises (Exception e), s') => handler e s'
    | (Raises (BaseException e), s') => (Raises (BaseException e), s')
    end.

#[local] Notation "'let!' x ':=' c 'in' k" := (bind c (fun x => k))
  (at level 10, x name, c at level 100, k at level 200).
#[local] Notation "c ';;;' k" := (bind c (fun _ => k))
  (at level 100, k at level 200, right associativity).

Definition hasattr_available_people {W} : M W bool :=
  fun s => (Returns (bool_decide (is_Some (available_people s))), s).

Definition set_available_people {W} (people : slot) : M W unit :=
  fun s => (Returns tt, Machine (world s) (heap s) (Some people) (console s)).

(** The list object at an address. *)
Definition object_at (h : list (list value)) (address : nat) : list value :=
  default [] (h !! address).

(** [len(people)] *)
Definition len {W} (people : nat) : M W nat :=
  fun s => (Returns (length (object_at (heap s) people)), s).

Definition call {W A} (method : W -> outcome A * W) : M W A :=
  fun s =>
    let (r, w) := method (world s) in
    (r, Machine w (heap s) (available_people s) (console s)).

Definition call_resource {W A}
    (method : option slot * list (list value) * W -> outcome A * (option slot * W))
    : M W A :=
  fun s =>
    let '(r, (a, w)) := method (available_people s, heap s, world s) in
    (r, Machine w (heap s) a (console s)).

Section SwarmDecisionEngine.

Context {W : Type} (E : environment W).

Definition py_str (v : value) : string :=
  match v with
  | VStr s => s
  | _ => py_repr E v
  end.

(** [print(line)]: the line reaches the console unless [sys.stdout]
    raises. *)
Definition print (line : string) : M W unit :=
  fun s =>
    match stdout_write E line (world s) with
    | None => (Returns tt, Machine (world s) (heap s) (available_people s)
                             (console s ++ [line]))
    | Some r => (Raises r, s)
    end.

Definition datetime_now_isoformat : M W string :=
  fun s => (Returns (isoformat_now E (world s)), s).

(** [self._get_default_people()] builds a new list object. *)
Definition _get_default_people : M W nat :=
  fun s =>
    (Returns (length (heap s)),
     Machine (world s) (heap s ++ [_get_default_people]) (available_people s)
       (console s)).

(** [final_decision.update({...})]: the method is looked up first, then
    the dict display is evaluated, [len(people)] in it. *)
Definition attach_metadata (self : engine) (people : nat)
    (final_decision : value) : M W (gmap string value) :=
  match final_decision with
  | VDict d =>
      let! people_considered := len people in
      ret (dict_update d
             (dict_display
                [ ("swarm_engine", VStr (name self));
                  ("engine_version", VStr (version self));
                  ("decision_method", VStr "swarm_intelligence");
                  ("agents_involved", VInt (Z.of_nat (length (agents self))));
                  ("people_considered", VInt (Z.of_nat people_considered)) ]))
  | v => raise (Exception (AttributeError_update v))
  end.

Definition make_decision_try (self : engine) (task : gmap string value)
    (people : option nat) : M W (gmap string value) :=
  let! people :=
    match people with
    | None => _get_default_people
    | Some people => ret people
    end in
  let! has := hasattr_available_people in
  (if has : bool then set_available_people (Ref people) else ret tt) ;;;
  print ("🎯 開始為任務 " +:+ py_str (dict_get task "id" (VStr "unknown")) +:+ " 進行群體決策") ;;;
  let agent_results : gmap string value := ∅ in
  print "📊 執行優先權分析..." ;;;
  let! priority_result := call (analyze_priority E task) in
  let agent_results := <["priority" := priority_result]> agent_results in
  print "👤 執行資源配對分析..." ;;;
  let! resource_result := call_resource (find_suitable_resources E task) in
  let agent_results := <["resources" := resource_result]> agent_results in
  print "⚠️ 執行風險評估..." ;;;
  let! risk_result := call (assess_risks E task) in
  let agent_results := <["risks" := risk_result]> agent_results in
  print "🤝 執行協調決策..." ;;;
  let! final_decision := call (coordinate_decision E task agent_results) in
  let! final_decision := attach_metadata self people final_decision in
  print ("✅ 決策完成，信心指數: " +:+ py_str (dict_get final_decision "confidence" (VStr "N/A"))) ;;;
  ret final_decision.

(** The line the handler prints. *)
Definition error_line (e : exn) : string :=
  "❌ 決策過程發生錯誤: " +:+ exn_str e.

Definition make_decision_except (self : engine) (task : gmap string value)
    (e : exn) : M W (gmap string value) :=
  print (error_line e) ;;;
  let! created_at := datetime_now_isoformat in
  ret (dict_display
    [ ("decision_id", VStr ("DEC_" +:+ py_str (dict_get task "id" (VStr "unknown")) +:+ "_ERROR"));
      ("task_id", dict_get task "id" (VStr "unknown"));
      ("recommendation", VStr "群體決策失敗，建議人工評估");
      ("confidence", VFloat 0.1);
      ("risk_level", VStr "high");
      ("assigned_to", VStr "待分配");
      ("error", VStr (exn_str e));
      ("swarm_engine", VStr (name self));
      ("created_at", VStr created_at) ]).

Definition make_decision (self : engine) (task : gmap string value)
    (people : option nat) : M W (gmap string value) :=
  try_except (make_decision_try self task people) (make_decision_except self task).

End SwarmDecisionEngine.

(** A resource agent that records, on entry, what [available_people] is
    bound to and the list it finds there. *)
Definition observing {W} (E : environment W)
    : environment (W * list (option slot * option (list value))) :=
  {| analyze_priority := fun task '(w, seen) =>
       let (r, w') := analyze_priority E task w in (r, (w', seen));
     find_suitable_resources := fun task '(attr, h, (w, seen)) =>
       let '(r, (attr', w')) := find_suitable_resources E task (attr, h, w) in
       let found :=
         match attr with
         | Some (Ref address) => h !! address
         | _ => None
         end in
       (r, (attr', (w', (seen ++ [(attr, found)])%list)));
     assess_risks := fun task '(w, seen) =>
       let (r, w') := assess_risks E task w in (r, (w', seen));
     coordinate_decision := fun task agent_results '(w, seen) =>
       let (r, w') := coordinate_decision E task agent_results w in (r, (w', seen));
     isoformat_now := fun '(w, _) => isoformat_now E w;
     py_repr := py_repr E;
     stdout_write := fun line '(w, _) => stdout_write E line w |}.

Definition forget_log {W}
    (m : machine (W * list (option slot * option (list value)))) : machine W :=
  Machine (world m).1 (heap m) (available_people m) (console m).

End Concrete.

(** ** From the first machine to the concrete one *)

(** An outcome of the first machine, read on the concrete one: all its
    exceptions are instances of [Exception]. *)
Definition lift {A} (r : result A) : Concrete.outcome A :=
  match r with
  | Ok a => Concrete.Returns a
  | Raise e => Concrete.Raises (Concrete.Exception e)
  end.

(** What a slot holds, as a value. *)
Definition view (h : list (list value)) (attr : option Concrete.slot) : option value :=
  match attr with
  | Some (Concrete.Ref address) => Some (VList (Concrete.object_at h address))
  | Some (Concrete.Val v) => Some v
  | None => None
  end.

(** The concrete environment an environment of the first machine stands
    for: the collaborators read lists by their contents and raise only
    instances of [Exception], and [sys.stdout] accepts every line. *)
Definition concretize {W} (E : environment W) : Concrete.environment W :=
  {| Concrete.analyze_priority := fun task w =>
       let (r, w') := analyze_priority E task w in (lift r, w');
     Concrete.find_suitable_resources := fun task '(attr, h, w) =>
       let '(r, (attr', w')) := find_suitable_resources E task (view h attr, w) in
       (lift r, (Concrete.Val <$> attr', w'));
     Concrete.assess_risks := fun task w =>
       let (r, w') := assess_risks E task w in (lift r, w');
     Concrete.coordinate_decision := fun task agent_results w =>
       let (r, w') := coordinate_decision E task agent_results w in (lift r, w');
     Concrete.isoformat_now := isoformat_now E;
     Concrete.py_repr := py_repr E;
     Concrete.stdout_write := fun _ _ => None |}.



(** What the resource agent is to find in a cycle: the reference the
    engine holds in [people], and the list at that address. *)
Definition to_be_found (h : list (list value)) (attr : option Concrete.slot)
    (people : option nat) : option Concrete.slot * option (list value) :=
  match attr, people with
  | None, _ => (None, None)
  | Some _, Some address => (Some (Concrete.Ref address), h !! address)
  | Some _, None => (Some (Concrete.Ref (length h)), Some _get_default_people)
  end.

Module ConcreteScenario.

(** Collaborators that answer from a script, on the concrete machine; the
    world counts their calls. *)
Definition scripted (priority resources risks merged : Concrete.outcome value)
    (stdout : string -> nat -> option Concrete.raised) : Concrete.environment nat :=
  {| Concrete.analyze_priority := fun _ w => (priority, S w);
     Concrete.find_suitable_resources := fun _ '(attr, _, w) => (resources, (attr, S w));
     Concrete.assess_risks := fun _ w => (risks, S w);
     Concrete.coordinate_decision := fun _ _ w => (merged, S w);
     Concrete.isoformat_now := fun w => "2024-05-01T09:00:0" +:+ pretty w;
     Concrete.py_repr := Scenario.repr_scalar;
     Concrete.stdout_write := stdout |}.





End ConcreteScenario.

(** * Properties

    ** Lookups in the dicts the engine builds *)

Lemma metadata_frame (self : engine) (people : list value) (k : string) :
  k ∉ metadata_keys -> engine_metadata self people !! k = None.
Proof.
  intros Hk. unfold engine_metadata, dict_display. simpl.
  repeat (rewrite lookup_insert_ne;
            [| intros <-; apply Hk; unfold metadata_keys; set_solver]).
  apply lookup_empty.
Qed.

Lemma update_lookup_new (d other : gmap string value) (k : string) (v : value) :
  other !! k = Some v -> dict_update d other !! k = Some v.
Proof. intros H. unfold dict_update. by apply lookup_union_Some_l. Qed.

Lemma update_lookup_old (d other : gmap string value) (k : string) :
  other !! k = None -> dict_update d other !! k = d !! k.
Proof. intros H. unfold dict_update. by apply lookup_union_r. Qed.

Lemma metadata_lookup (self : engine) (people : list value) :
  engine_metadata self people !! "swarm_engine" = Some (VStr (name self)) /\
  engine_metadata self people !! "engine_version" = Some (VStr (version self)) /\
  engine_metadata self people !! "decision_method" = Some (VStr "swarm_intelligence") /\
  engine_metadata self people !! "agents_involved"
    = Some (VInt (Z.of_nat (length (agents self)))) /\
  engine_metadata self people !! "people_considered"
    = Some (VInt (Z.of_nat (length people))).
Proof. repeat split; reflexivity. Qed.

Lemma task_id_not_metadata : "task_id" ∉ metadata_keys.
Proof.
  unfold metadata_keys. intros Hk.
  repeat (apply elem_of_cons in Hk as [Hk | Hk]; [discriminate |]).
  by apply elem_of_nil in Hk.
Qed.

Lemma metadata_is_Some (self : engine) (people : list value) (k : string) :
  k ∈ metadata_keys -> is_Some (engine_metadata self people !! k).
Proof.
  unfold metadata_keys. intros Hk.
  repeat (apply elem_of_cons in Hk as [-> | Hk]; [by eexists |]).
  by apply elem_of_nil in Hk.
Qed.

Lemma degraded_lookup {W} (E : environment W) (self : engine)
    (task : gmap string value) (e : exn) (created_at : string) :
  let d := degraded E self task e created_at in
  d !! "decision_id"
    = Some (VStr ("DEC_" +:+ py_str E (dict_get task "id" (VStr "unknown")) +:+ "_ERROR")) /\
  d !! "task_id" = Some (dict_get task "id" (VStr "unknown")) /\
  d !! "confidence" = Some (VFloat 0.1) /\
  d !! "risk_level" = Some (VStr "high") /\
  d !! "assigned_to" = Some (VStr "待分配") /\
  d !! "error" = Some (VStr (exn_str e)) /\
  d !! "swarm_engine" = Some (VStr (name self)) /\
  d !! "created_at" = Some (VStr created_at).
Proof. repeat split; reflexivity. Qed.

Lemma degraded_metadata {W} (E : environment W) (self : engine)
    (task : gmap string value) (e : exn) (created_at : string) :
  let d := degraded E self task e created_at in
  d !! "engine_version" = None /\
  d !! "decision_method" = None /\
  d !! "agents_involved" = None /\
  d !! "people_considered" = None.
Proof. repeat split; reflexivity. Qed.

(** Unfolds one call of the engine down to the collaborators' answers. *)
Ltac run_engine :=
  unfold make_decision, try_except, make_decision_try, make_decision_except,
    bind, call, call_resource, hasattr_available_people, set_available_people,
    print, ret, raise, attach_metadata, datetime_now_isoformat, handed_over,
    collected, forget_log in *;
  simpl in *.

(** ** How a call of [make_decision] runs *)

Section Runs.

Context {W : Type} (E : environment W).

(** Every cycle takes one of the two kinds of path. *)
Lemma cycle_total (task : gmap string value) (pool : list value)
    (attr : option value) (w : W) :
  (exists d attr' w', cycle_succeeds E task pool attr w d attr' w') \/
  (exists e attr' w', cycle_fails E task pool attr w e attr' w').
Proof.
  destruct (analyze_priority E task w) as [[pr | e] w1] eqn:Hp;
    [| right; do 3 eexists; by eapply priority_raises].
  destruct (find_suitable_resources E task (handed_over attr pool, w1))
    as [[rr | e] [attr' w2]] eqn:Hr;
    [| right; do 3 eexists; by eapply resources_raise].
  destruct (assess_risks E task w2) as [[kr | e] w3] eqn:Hk;
    [| right; do 3 eexists; by eapply risks_raise].
  destruct (coordinate_decision E task (collected pr rr kr) w3)
    as [[v | e] w'] eqn:Hc;
    [| right; do 3 eexists; by eapply coordinator_raises].
  destruct v as [| b | z | f | s | l | d];
    first [ left; do 3 eexists; by eapply cycle_ok
          | right; do 3 eexists; by eapply update_raises ].
Qed.


(** A successful cycle: the [try] block returns the coordinator's dict
    with the metadata attached. *)
Lemma make_decision_try_succeeds (self : engine) (task : gmap string value)
    (people : option (list value)) (st : state W) d attr' w' :
  cycle_succeeds E task (resolve_people people) (available_people st) (world st) d attr' w' ->
  exists lines,
    make_decision_try E self task people st
    = (Ok (dict_update d (engine_metadata self (resolve_people people))),
       State w' attr' (console st ++ lines)).
Proof.
  intros [pr w1 rr ? w2 kr w3 ? ? Hp Hr Hk Hc].
  destruct st as [w attr con]. run_engine.
  destruct attr; run_engine; rewrite Hp; simpl; rewrite Hr; simpl; rewrite Hk; simpl;
    rewrite Hc; simpl; rewrite <- !app_assoc; eexists; reflexivity.
Qed.

(** A failed cycle: the [try] block raises the exception of the step
    that failed. *)
Lemma make_decision_try_fails (self : engine) (task : gmap string value)
    (people : option (list value)) (st : state W) e attr' w' :
  cycle_fails E task (resolve_people people) (available_people st) (world st) e attr' w' ->
  exists lines,
    make_decision_try E self task people st
    = (Raise e, State w' attr' (console st ++ lines)).
Proof.
  intros Hf. destruct st as [w attr con].
  destruct Hf as [e w' Hp | pr w1 e attr' w' Hp Hr | pr w1 rr attr' w2 e w' Hp Hr Hk
                 | pr w1 rr attr' w2 kr w3 e w' Hp Hr Hk Hc
                 | pr w1 rr attr' w2 kr w3 v w' Hp Hr Hk Hc Hv];
    run_engine; destruct attr; run_engine;
    rewrite Hp; simpl; try (rewrite Hr; simpl); try (rewrite Hk; simpl);
    try (rewrite Hc; simpl); rewrite <- ?app_assoc;
    try (eexists; reflexivity).
  all: destruct v; try (by exfalso; eapply Hv); simpl; eexists; reflexivity.
Qed.

End Runs.

Section Outcomes.

Context {W : Type} (E : environment W).


(** [make_decision] on a successful cycle. *)
Lemma make_decision_succeeds (self : engine) (task : gmap string value)
    (people : option (list value)) (st : state W) d attr' w' :
  cycle_succeeds E task (resolve_people people) (available_people st) (world st) d attr' w' ->
  exists lines,
    make_decision E self task people st
    = (Ok (dict_update d (engine_metadata self (resolve_people people))),
       State w' attr' (console st ++ lines)).
Proof.
  intros Hs. destruct (make_decision_try_succeeds E self _ _ _ _ _ _ Hs) as [lines Hrun].
  exists lines. unfold make_decision, try_except. by rewrite Hrun.
Qed.

(** [make_decision] on a failed cycle: the handler turns the exception
    into the degraded dict, stamped with the clock of the world the
    failure left behind. *)
Lemma make_decision_degrades (self : engine) (task : gmap string value)
    (people : option (list value)) (st : state W) e attr' w' :
  cycle_fails E task (resolve_people people) (available_people st) (world st) e attr' w' ->
  exists lines,
    make_decision E self task people st
    = (Ok (degraded E self task e (isoformat_now E w')),
       State w' attr' (console st ++ lines)).
Proof.
  intros Hf. destruct (make_decision_try_fails E self _ _ _ _ _ _ Hf) as [lines Hrun].
  exists (lines ++ ["❌ 決策過程發生錯誤: " +:+ exn_str e])%list.
  unfold make_decision, try_except. rewrite Hrun.
  unfold make_decision_except, bind, print, datetime_now_isoformat, ret. simpl.
  by rewrite <- app_assoc.
Qed.

End Outcomes.

(** ** The recording resource agent *)

Section Observing.

Context {W : Type} (E : environment W).

(** Recording changes nothing of what the engine does. *)
Lemma observing_erase (self : engine) (task : gmap string value)
    (people : option (list value)) (st : state (W * list (option value))) :
  let run := make_decision (observing E) self task people st in
  make_decision E self task people (forget_log st) = (run.1, forget_log run.2).
Proof.
  destruct st as [[w seen] attr con]. run_engine.
  destruct attr as [old |]; simpl;
    destruct (analyze_priority E task w) as [[pr | e] w1]; simpl; try reflexivity;
    match goal with
    | |- context [find_suitable_resources E task ?aw] =>
        destruct (find_suitable_resources E task aw) as [[rr | e] [attr' w2]]
    end; simpl; try reflexivity;
    destruct (assess_risks E task w2) as [[kr | e] w3]; simpl; try reflexivity;
    match goal with
    | |- context [coordinate_decision E task ?res w3] =>
        destruct (coordinate_decision E task res w3) as [[[] | e] w4]
    end; reflexivity.
Qed.

(** What the log holds after one cycle started with an empty log. *)
Lemma observing_log (self : engine) (task : gmap string value)
    (people : option (list value)) (w : W) (attr : option value) (con : list string) :
  (world (make_decision (observing E) self task people (State (w, []) attr con)).2).2
  = match analyze_priority E task w with
    | (Ok _, _) => [handed_over attr (resolve_people people)]
    | (Raise _, _) => []
    end.
Proof.
  run_engine.
  destruct attr as [old |]; simpl;
    destruct (analyze_priority E task w) as [[pr | e] w1]; simpl; try reflexivity;
    match goal with
    | |- context [find_suitable_resources E task ?aw] =>
        destruct (find_suitable_resources E task aw) as [[rr | e] [attr' w2]]
    end; simpl; try reflexivity;
    destruct (assess_risks E task w2) as [[kr | e] w3]; simpl; try reflexivity;
    match goal with
    | |- context [coordinate_decision E task ?res w3] =>
        destruct (coordinate_decision E task res w3) as [[[] | e] w4]
    end; reflexivity.
Qed.

End Observing.

(** ** The degraded path *)


(** A collaborator raises an exception without a message
    ([raise ValueError()]), and the [error] field of the returned dict is
    the empty string. *)
Lemma error_field_can_be_empty :
  exists e attr' w' d st',
    cycle_fails Scenario.resources_fail Scenario.task_T1 Scenario.one_person
      (available_people Scenario.with_pool) (world Scenario.with_pool) e attr' w' /\
    make_decision Scenario.resources_fail (new_engine Scenario.resources_fail)
      Scenario.task_T1 (Some Scenario.one_person) Scenario.with_pool = (Ok d, st') /\
    d !! "confidence" = Some (VFloat 0.1) /\
    d !! "error" = Some (VStr "").
Proof.
  do 5 eexists. split; [| split; [reflexivity | split; reflexivity]].
  eapply resources_raise; reflexivity.
Qed.

(** C4: for a task without an [id] (the empty dict in particular), a cycle
    in which a collaborator raises ends in a dict with
    [task_id == "unknown"], a [decision_id] that ends in [_ERROR] and
    [confidence == 0.1]; and the missing [id] is no error by itself: a
    cycle in which the collaborators answer returns the coordinator's
    dict with the metadata, not the degraded one. *)
Theorem missing_id_degrades_to_unknown {W} (E : environment W) (self : engine)
    (task : gmap string value) (people : option (list value)) (st : state W) :
  task !! "id" = None ->
  (forall e attr' w',
     cycle_fails E task (resolve_people people) (available_people st) (world st) e attr' w' ->
     exists d st',
       make_decision E self task people st = (Ok d, st') /\
       d !! "task_id" = Some (VStr "unknown") /\
       (exists decision_id,
          d !! "decision_id" = Some (VStr decision_id) /\
          decision_id = "DEC_unknown_ERROR" /\
          ends_with decision_id "_ERROR") /\
       d !! "confidence" = Some (VFloat 0.1)) /\
  (forall d0 attr' w',
     cycle_succeeds E task (resolve_people people) (available_people st) (world st) d0 attr' w' ->
     exists st',
       make_decision E self task people st
       = (Ok (dict_update d0 (engine_metadata self (resolve_people people))), st')).
Proof.
  intros Hid. split.
  - intros e attr' w' Hf.
    destruct (make_decision_degrades E self _ _ _ _ _ _ Hf) as [lines Hrun].
    do 2 eexists. split; [exact Hrun |].
    pose proof (degraded_lookup E self task e (isoformat_now E w')) as Hd.
    unfold dict_get in Hd. rewrite Hid in Hd. simpl in Hd.
    destruct Hd as (Hdec & Htask & Hconf & _).
    split; [exact Htask |]. split; [| exact Hconf].
    exists "DEC_unknown_ERROR". split; [exact Hdec |]. split; [reflexivity |].
    by exists "DEC_unknown".
  - intros d0 attr' w' Hs.
    destruct (make_decision_succeeds E self _ _ _ _ _ _ Hs) as [lines Hrun].
    eexists. exact Hrun.
Qed.

(** A run of C4: the empty task, and a resource agent that raises. *)
Lemma missing_id_degrades_to_unknown_witness :
  exists d st',
    make_decision Scenario.resources_fail (new_engine Scenario.resources_fail)
      ∅ None Scenario.with_pool = (Ok d, st') /\
    d !! "task_id" = Some (VStr "unknown") /\
    (exists decision_id,
       d !! "decision_id" = Some (VStr decision_id) /\
       decision_id = "DEC_unknown_ERROR" /\
       ends_with decision_id "_ERROR") /\
    d !! "confidence" = Some (VFloat 0.1).
Proof.
  eapply (proj1 (missing_id_degrades_to_unknown Scenario.resources_fail
                   (new_engine Scenario.resources_fail) ∅ None Scenario.with_pool
                   (lookup_empty _))).
  eapply resources_raise; reflexivity.
Defined.

(** ** The engine metadata *)

(** C2, as the code has it: every call returns a dict that carries
    [swarm_engine]; after a successful cycle it also carries
    [engine_version], [decision_method], [agents_involved == 3] and
    [people_considered == len(people)] for the pool of that call; the
    degraded dict carries none of these four. *)
Theorem metadata_by_outcome {W} (E : environment W)
    (task : gmap string value) (people : option (list value)) (st : state W) :
  let pool := resolve_people people in
  exists d st',
    make_decision E (new_engine E) task people st = (Ok d, st') /\
    d !! "swarm_engine" = Some (VStr "Swarm Decision Engine") /\
    (((exists d0 attr' w',
         cycle_succeeds E task pool (available_people st) (world st) d0 attr' w') /\
      d !! "engine_version" = Some (VStr "1.0.0") /\
      d !! "decision_method" = Some (VStr "swarm_intelligence") /\
      d !! "agents_involved" = Some (VInt 3) /\
      d !! "people_considered" = Some (VInt (Z.of_nat (length pool))))
     \/
     ((exists e attr' w',
         cycle_fails E task pool (available_people st) (world st) e attr' w') /\
      d !! "engine_version" = None /\
      d !! "decision_method" = None /\
      d !! "agents_involved" = None /\
      d !! "people_considered" = None)).
Proof.
  intros pool.
  destruct (cycle_total E task pool (available_people st) (world st))
    as [(d0 & attr1 & w1 & Hs) | (e0 & attr1 & w1 & Hf)].
  - destruct (make_decision_succeeds E (new_engine E) _ _ _ _ _ _ Hs) as [lines Hrun].
    do 2 eexists. split; [exact Hrun |].
    split; [by apply update_lookup_new |].
    left. split; [by eauto |].
    repeat split; by apply update_lookup_new.
  - destruct (make_decision_degrades E (new_engine E) _ _ _ _ _ _ Hf) as [lines Hrun].
    do 2 eexists. split; [exact Hrun |].
    split; [reflexivity |].
    right. split; [by eauto |].
    repeat split; reflexivity.
Qed.

(** C2 as stated fails: on the degraded path only [swarm_engine] is
    there; the other four metadata fields are missing. *)
Lemma degraded_lacks_metadata :
  exists d st',
    make_decision Scenario.resources_fail (new_engine Scenario.resources_fail)
      Scenario.task_T1 (Some Scenario.one_person) Scenario.with_pool = (Ok d, st') /\
    d !! "error" = Some (VStr "") /\
    d !! "swarm_engine" = Some (VStr "Swarm Decision Engine") /\
    d !! "engine_version" = None /\
    d !! "decision_method" = None /\
    d !! "agents_involved" = None /\
    d !! "people_considered" = None.
Proof. do 2 eexists. repeat split; reflexivity. Qed.

(** C3, as the code has it: attaching the metadata is a
    [dict.update]: every key of the coordinator's dict other than the
    five metadata keys keeps the coordinator's value, and each of the five
    metadata keys ends up with the engine's value, whatever the
    coordinator had put there. *)
Theorem attach_overwrites_only_metadata {W} (E : environment W) (self : engine)
    (task : gmap string value) (people : option (list value)) (st : state W)
    d0 attr' w' :
  cycle_succeeds E task (resolve_people people) (available_people st) (world st) d0 attr' w' ->
  exists d st',
    make_decision E self task people st = (Ok d, st') /\
    (forall k, k ∉ metadata_keys -> d !! k = d0 !! k) /\
    (forall k, k ∈ metadata_keys ->
       is_Some (d !! k) /\ d !! k = engine_metadata self (resolve_people people) !! k).
Proof.
  intros Hs.
  destruct (make_decision_succeeds E self _ _ _ _ _ _ Hs) as [lines Hrun].
  do 2 eexists. split; [exact Hrun |]. split.
  - intros k Hk. apply update_lookup_old. by apply metadata_frame.
  - intros k Hk.
    destruct (metadata_is_Some self (resolve_people people) k Hk) as [v Hv].
    rewrite (update_lookup_new _ _ _ _ Hv). by rewrite Hv.
Qed.

(** A run of C3: the coordinator's [task_id] survives, its
    [decision_method] does not. *)
Lemma attach_overwrites_only_metadata_witness :
  exists d st',
    make_decision Scenario.all_answer (new_engine Scenario.all_answer)
      Scenario.task_T1 None Scenario.with_pool = (Ok d, st') /\
    (forall k, k ∉ metadata_keys -> d !! k = Scenario.merged_T1 !! k) /\
    (forall k, k ∈ metadata_keys ->
       is_Some (d !! k) /\
       d !! k = engine_metadata (new_engine Scenario.all_answer) (resolve_people None) !! k).
Proof.
  eapply (attach_overwrites_only_metadata Scenario.all_answer
            (new_engine Scenario.all_answer) Scenario.task_T1 None Scenario.with_pool).
  eapply cycle_ok; reflexivity.
Defined.

(** C3 as stated fails: the coordinator returns a dict with its own
    [decision_method], and the attach step replaces that value. *)
Lemma attach_clobbers_coordinator_key :
  exists d st',
    cycle_succeeds Scenario.all_answer Scenario.task_T1 (resolve_people None)
      (available_people Scenario.with_pool) (world Scenario.with_pool)
      Scenario.merged_T1 (available_people st') (world st') /\
    make_decision Scenario.all_answer (new_engine Scenario.all_answer)
      Scenario.task_T1 None Scenario.with_pool = (Ok d, st') /\
    Scenario.merged_T1 !! "decision_method" = Some (VStr "weighted_vote") /\
    d !! "decision_method" = Some (VStr "swarm_intelligence").
Proof.
  do 2 eexists. split; [| split; [reflexivity | split; reflexivity]].
  eapply cycle_ok; reflexivity.
Qed.

(** ** The candidate pool *)

(** C5: leaving [people] out is the same as passing the default roster:
    the same pool is used, and from the same state the two calls return
    the same dict and leave the same state behind. *)
Theorem omitted_people_is_default_roster {W} (E : environment W) (self : engine)
    (task : gmap string value) (st : state W) :
  resolve_people None = resolve_people (Some _get_default_people) /\
  make_decision E self task None st
  = make_decision E self task (Some _get_default_people) st.
Proof. split; reflexivity. Qed.

(** C6: for the task [{id: "T1"}] and no people, a cycle in which the
    collaborators answer and the coordinator names the task returns a
    dict with [task_id == "T1"] and [people_considered == 4], the size of
    the default roster. *)
Theorem scenario_T1_default_roster {W} (E : environment W) (st : state W)
    d0 attr' w' :
  let task := dict_display [("id", VStr "T1")] in
  cycle_succeeds E task _get_default_people (available_people st) (world st) d0 attr' w' ->
  coordinator_names_task task d0 ->
  exists d st',
    make_decision E (new_engine E) task None st = (Ok d, st') /\
    d !! "task_id" = Some (VStr "T1") /\
    d !! "people_considered" = Some (VInt 4).
Proof.
  intros task Hs [_ Hname].
  destruct (make_decision_succeeds E (new_engine E) task None st _ _ _ Hs) as [lines Hrun].
  do 2 eexists. split; [exact Hrun |]. split.
  - rewrite update_lookup_old by (apply metadata_frame, task_id_not_metadata).
    rewrite Hname. reflexivity.
  - by apply update_lookup_new.
Qed.

(** A run of C6. *)
Lemma scenario_T1_default_roster_witness :
  exists d st',
    make_decision Scenario.all_answer (new_engine Scenario.all_answer)
      (dict_display [("id", VStr "T1")]) None Scenario.with_pool = (Ok d, st') /\
    d !! "task_id" = Some (VStr "T1") /\
    d !! "people_considered" = Some (VInt 4).
Proof.
  eapply (scenario_T1_default_roster Scenario.all_answer Scenario.with_pool
            Scenario.merged_T1).
  - eapply cycle_ok; reflexivity.
  - split; [by eexists | reflexivity].
Defined.

(** C7: [make_decision_with_custom_people(task, people)] with a list for
    [people] is [make_decision(task, people)]. *)
Theorem custom_people_is_make_decision {W} (E : environment W) (self : engine)
    (task : gmap string value) (people : list value) (st : state W) :
  make_decision_with_custom_people E self task (Some people) st
  = make_decision E self task (Some people) st.
Proof. unfold make_decision_with_custom_people. reflexivity. Qed.

(** C10: only a missing [people] brings in the default roster.  An
    explicit list is the pool, the empty list included, and a successful
    cycle on the empty list returns [people_considered == 0]. *)
Theorem empty_pool_is_kept {W} (E : environment W) (self : engine)
    (task : gmap string value) (st : state W) d0 attr' w' :
  cycle_succeeds E task [] (available_people st) (world st) d0 attr' w' ->
  (forall people, resolve_people (Some people) = people) /\
  resolve_people None = _get_default_people /\
  exists d st',
    make_decision E self task (Some []) st = (Ok d, st') /\
    d !! "people_considered" = Some (VInt 0).
Proof.
  intros Hs. split; [done |]. split; [done |].
  destruct (make_decision_succeeds E self task (Some []) st _ _ _ Hs) as [lines Hrun].
  do 2 eexists. split; [exact Hrun |]. by apply update_lookup_new.
Qed.

(** A run of C10. *)
Lemma empty_pool_is_kept_witness :
  (forall people, resolve_people (Some people) = people) /\
  resolve_people None = _get_default_people /\
  exists d st',
    make_decision Scenario.all_answer (new_engine Scenario.all_answer)
      Scenario.task_T1 (Some []) Scenario.with_pool = (Ok d, st') /\
    d !! "people_considered" = Some (VInt 0).
Proof.
  eapply (empty_pool_is_kept Scenario.all_answer (new_engine Scenario.all_answer)
            Scenario.task_T1 Scenario.with_pool Scenario.merged_T1).
  eapply cycle_ok; reflexivity.
Defined.

(** ** The hand-over of the pool *)

(** On the first machine, where a list is its contents: in a cycle that
    starts with a resource agent that has an [available_people]
    attribute, the attribute holds the items of the pool of the call when
    [find_suitable_resources] runs; when the agent has no such attribute
    the call finds none.  The call is made once, after the priority
    analysis has returned, and not at all when that analysis raises. *)
Lemma resource_fit_reads_handed_pool {W} (E : environment W) (self : engine)
    (task : gmap string value) (people : option (list value))
    (w : W) (attr : option value) (lines : list string) :
  let pool := resolve_people people in
  let run := make_decision (observing E) self task people (State (w, []) attr lines) in
  make_decision E self task people (State w attr lines) = (run.1, forget_log run.2) /\
  (world run.2).2
  = match analyze_priority E task w, attr with
    | (Raise _, _), _ => []
    | (Ok _, _), Some _ => [Some (VList pool)]
    | (Ok _, _), None => [None]
    end.
Proof.
  intros pool run. split.
  - apply (observing_erase E self task people (State (w, []) attr lines)).
  - unfold run. rewrite observing_log.
    destruct (analyze_priority E task w) as [[pr | e] w1]; destruct attr; reflexivity.
Qed.

(** C8 as stated fails: the resource agent has no [available_people]; the
    cycle runs [find_suitable_resources] all the same, the call finds no
    pool, and the attribute is still missing when the decision is
    returned. *)
Lemma no_attribute_no_handover :
  let run :=
    make_decision (observing Scenario.all_answer) (new_engine Scenario.all_answer)
      Scenario.task_T1 (Some Scenario.one_person) (State (0%nat, []) None []) in
  (world run.2).2 = [None] /\
  available_people run.2 = None /\
  exists d, run.1 = Ok d /\ d !! "people_considered" = Some (VInt 1).
Proof. repeat split. eexists. split; reflexivity. Qed.

(** The same cycle with the attribute in place: the call reads the pool
    of the caller. *)
Example handover_with_attribute :
  let run :=
    make_decision (observing Scenario.all_answer) (new_engine Scenario.all_answer)
      Scenario.task_T1 (Some Scenario.one_person)
      (State (0%nat, []) (Some (VList [])) []) in
  (world run.2).2 = [Some (VList Scenario.one_person)] /\
  available_people run.2 = Some (VList Scenario.one_person).
Proof. split; reflexivity. Qed.

(** ** Introspection *)

(** Construction prints two lines and leaves the engine with its three
    scoring collaborators. *)
Lemma init_engine {W} (E : environment W) (st : state W) :
  exists lines,
    __init__ E st
    = (Ok (new_engine E), State (world st) (available_people st) (console st ++ lines)) /\
    length lines = 2%nat /\
    length (agents (new_engine E)) = 3%nat.
Proof.
  destruct st as [w attr con]. eexists. split; [| split; [| reflexivity]].
  - unfold __init__, bind, print, ret. simpl. rewrite <- app_assoc. reflexivity.
  - reflexivity.
Qed.

(** C9: [get_engine_status] returns, without raising and without touching
    the state, a dict with one entry per scoring collaborator under
    [agents_status] and one for the coordinator under
    [coordinator_status]; each entry has the collaborator's name, its
    version or ["unknown"] when it has none, and the marker ["active"]. *)
Theorem get_engine_status_entries {W} (E : environment W) (st : state W) :
  exists status entries entry,
    get_engine_status (new_engine E) st = (Ok status, st) /\
    status !! "agents_count" = Some (VInt 3) /\
    status !! "agents_status" = Some (VList entries) /\
    Forall2 is_status_entry [PriorityAgent E; ResourceAgent E; RiskAgent E] entries /\
    status !! "coordinator_status" = Some entry /\
    is_status_entry (Coordinator E) entry.
Proof.
  do 3 eexists. do 3 (split; [reflexivity |]). split.
  - repeat constructor; eexists; repeat split; reflexivity.
  - split; [reflexivity |]. eexists; repeat split; reflexivity.
Qed.

(** * Further properties of the engine

    ** The recording collaborators *)

Section Tracing.

Context {W : Type} (E : environment W).

Ltac answer_by_answer :=
  unfold forget_trace in *; run_engine;
  match goal with
  | |- context [analyze_priority E ?task ?w] =>
      destruct (analyze_priority E task w) as [[pr | e] w1]
  end; simpl; rewrite <- ?app_assoc; try reflexivity;
  match goal with
  | |- context [find_suitable_resources E ?task ?aw] =>
      destruct (find_suitable_resources E task aw) as [[rr | e] [attr' w2]]
  end; simpl; rewrite <- ?app_assoc; try reflexivity;
  match goal with
  | |- context [assess_risks E ?task ?w] =>
      destruct (assess_risks E task w) as [[kr | e] w3]
  end; simpl; rewrite <- ?app_assoc; try reflexivity;
  match goal with
  | |- context [coordinate_decision E ?task ?res ?w] =>
      destruct (coordinate_decision E task res w) as [[[] | e] w4]
  end; simpl; rewrite <- ?app_assoc; reflexivity.

(** Tracing changes nothing of what the engine does. *)
Lemma tracing_erase (self : engine) (task : gmap string value)
    (people : option (list value)) (st : state (W * list event)) :
  let run := make_decision (tracing E) self task people st in
  make_decision E self task people (forget_trace st) = (run.1, forget_trace run.2).
Proof.
  destruct st as [[w trace] attr lines]. destruct attr as [old |].
  - answer_by_answer.
  - answer_by_answer.
Qed.

(** The calls one cycle adds to the trace. *)
Lemma tracing_calls (self : engine) (task : gmap string value)
    (people : option (list value)) (w : W) (trace : list event)
    (attr : option value) (lines : list string) :
  let pool := resolve_people people in
  (world (make_decision (tracing E) self task people (State (w, trace) attr lines)).2).2
  = (trace ++
     match analyze_priority E task w with
     | (Raise _, _) => [CallPriority task]
     | (Ok pr, w1) =>
         match find_suitable_resources E task (handed_over attr pool, w1) with
         | (Raise _, _) =>
             [CallPriority task; CallResources task (handed_over attr pool)]
         | (Ok rr, (_, w2)) =>
             match assess_risks E task w2 with
             | (Raise _, _) =>
                 [CallPriority task; CallResources task (handed_over attr pool);
                  CallRisks task]
             | (Ok kr, _) =>
                 [CallPriority task; CallResources task (handed_over attr pool);
                  CallRisks task; CallCoordinator task (collected pr rr kr)]
             end
         end
     end)%list.
Proof.
  intros pool. unfold pool. destruct attr as [old |].
  - answer_by_answer.
  - answer_by_answer.
Qed.

(** What the recording resource agent adds to a log that is not empty. *)
Lemma observing_log_from (self : engine) (task : gmap string value)
    (people : option (list value)) (w : W) (seen : list (option value))
    (attr : option value) (lines : list string) :
  (world (make_decision (observing E) self task people (State (w, seen) attr lines)).2).2
  = (seen ++
     match analyze_priority E task w with
     | (Ok _, _) => [handed_over attr (resolve_people people)]
     | (Raise _, _) => []
     end)%list.
Proof.
  destruct attr as [old |]; run_engine;
    destruct (analyze_priority E task w) as [[pr | e] w1]; simpl;
    rewrite ?app_nil_r; try reflexivity;
    match goal with
    | |- context [find_suitable_resources E task ?aw] =>
        destruct (find_suitable_resources E task aw) as [[rr | e] [attr' w2]]
    end; simpl; try reflexivity;
    destruct (assess_risks E task w2) as [[kr | e] w3]; simpl; try reflexivity;
    match goal with
    | |- context [coordinate_decision E task ?res w3] =>
        destruct (coordinate_decision E task res w3) as [[[] | e] w4]
    end; reflexivity.
Qed.

End Tracing.

(** ** Which collaborator is asked, when, and with what *)

(** X1: one cycle asks the collaborators in the fixed order priority,
    resources, risks, coordinator, each at most once, and stops asking at
    the first one that raises. *)
Theorem collaborators_called_in_order {W} (E : environment W) (self : engine)
    (task : gmap string value) (people : option (list value))
    (w : W) (attr : option value) (lines : list string) :
  let pool := resolve_people people in
  let run := make_decision (tracing E) self task people (State (w, []) attr lines) in
  make_decision E self task people (State w attr lines) = (run.1, forget_trace run.2) /\
  map event_name (world run.2).2
  = match analyze_priority E task w with
    | (Raise _, _) => ["analyze_priority"]
    | (Ok _, w1) =>
        match find_suitable_resources E task (handed_over attr pool, w1) with
        | (Raise _, _) => ["analyze_priority"; "find_suitable_resources"]
        | (Ok _, (_, w2)) =>
            match assess_risks E task w2 with
            | (Raise _, _) =>
                ["analyze_priority"; "find_suitable_resources"; "assess_risks"]
            | (Ok _, _) =>
                ["analyze_priority"; "find_suitable_resources"; "assess_risks";
                 "coordinate_decision"]
            end
        end
    end.
Proof.
  intros pool run. split.
  - apply (tracing_erase E self task people (State (w, []) attr lines)).
  - unfold run. rewrite tracing_calls. fold pool. simpl.
    destruct (analyze_priority E task w) as [[pr | e] w1]; [| reflexivity].
    destruct (find_suitable_resources E task (handed_over attr pool, w1))
      as [[rr | e] [attr' w2]]; [| reflexivity].
    destruct (assess_risks E task w2) as [[kr | e] w3]; reflexivity.
Qed.

(** X2: when the three scoring collaborators answer, the coordinator is
    called last, with the task the caller passed and a dict that has
    exactly the keys [priority], [resources] and [risks], bound to the
    three answers. *)
Theorem coordinator_receives_three_opinions {W} (E : environment W) (self : engine)
    (task : gmap string value) (people : option (list value))
    (w : W) (attr : option value) (lines : list string) pr w1 rr attr' w2 kr w3 :
  analyze_priority E task w = (Ok pr, w1) ->
  find_suitable_resources E task (handed_over attr (resolve_people people), w1)
    = (Ok rr, (attr', w2)) ->
  assess_risks E task w2 = (Ok kr, w3) ->
  let run := make_decision (tracing E) self task people (State (w, []) attr lines) in
  exists agent_results,
    last (world run.2).2 = Some (CallCoordinator task agent_results) /\
    dom agent_results = {["priority"; "resources"; "risks"]} /\
    agent_results !! "priority" = Some pr /\
    agent_results !! "resources" = Some rr /\
    agent_results !! "risks" = Some kr.
Proof.
  intros Hp Hr Hk run. exists (collected pr rr kr).
  split; [| split; [| repeat split; reflexivity]].
  - unfold run. rewrite tracing_calls. rewrite Hp, Hr, Hk. reflexivity.
  - unfold collected. rewrite !dom_insert_L, dom_empty_L. set_solver.
Qed.

(** A run of X2. *)
Lemma coordinator_receives_three_opinions_witness :
  let run :=
    make_decision (tracing Scenario.all_answer) (new_engine Scenario.all_answer)
      Scenario.task_T1 None (State (0%nat, []) (Some (VList [])) []) in
  exists agent_results,
    last (world run.2).2 = Some (CallCoordinator Scenario.task_T1 agent_results) /\
    dom agent_results = {["priority"; "resources"; "risks"]} /\
    agent_results !! "priority"
      = Some (VDict (dict_display [("priority_score", VInt 3)])) /\
    agent_results !! "resources"
      = Some (VDict (dict_display [("best_match", VStr "PERSON002")])) /\
    agent_results !! "risks"
      = Some (VDict (dict_display [("risk_level", VStr "low")])).
Proof.
  eapply (coordinator_receives_three_opinions Scenario.all_answer
            (new_engine Scenario.all_answer) Scenario.task_T1 None 0%nat
            (Some (VList [])) []); reflexivity.
Defined.

(** X3: two calls in a row on the same engine.  If the resource agent
    still has its attribute after the first call and the second priority
    analysis returns, the second [find_suitable_resources] reads the pool
    of the second call, whatever the first call had handed over. *)
Theorem second_call_reads_second_pool {W} (E : environment W) (self : engine)
    (task1 task2 : gmap string value) (people1 people2 : option (list value))
    (w : W) (attr : option value) (lines : list string) :
  let run1 := make_decision (observing E) self task1 people1 (State (w, []) attr lines) in
  let run2 := make_decision (observing E) self task2 people2 run1.2 in
  is_Some (available_people run1.2) ->
  (exists r w', analyze_priority E task2 (world run1.2).1 = (Ok r, w')) ->
  last (world run2.2).2 = Some (Some (VList (resolve_people people2))).
Proof.
  intros run1 run2. unfold run2. clear run2.
  destruct (run1.2) as [[w1 seen1] attr1 lines1]. simpl.
  intros [old ->] (r & w' & Hp).
  rewrite observing_log_from, Hp. simpl. apply last_snoc.
Qed.

(** A run of X3: the default roster first, one person next. *)
Lemma second_call_reads_second_pool_witness :
  let run1 :=
    make_decision (observing Scenario.all_answer) (new_engine Scenario.all_answer)
      Scenario.task_T1 None (State (0%nat, []) (Some (VList [])) []) in
  let run2 :=
    make_decision (observing Scenario.all_answer) (new_engine Scenario.all_answer)
      Scenario.task_7 (Some Scenario.one_person) run1.2 in
  last (world run2.2).2 = Some (Some (VList Scenario.one_person)).
Proof.
  eapply (second_call_reads_second_pool Scenario.all_answer
            (new_engine Scenario.all_answer) Scenario.task_T1 Scenario.task_7
            None (Some Scenario.one_person) 0%nat (Some (VList [])) []).
  - eexists. reflexivity.
  - do 2 eexists. reflexivity.
Defined.

(** X4: whatever the attribute held before the call has no part in it:
    two states that differ only in the old value of [available_people]
    give the same result and the same state afterwards. *)
Theorem stale_pool_is_never_read {W} (E : environment W) (self : engine)
    (task : gmap string value) (people : option (list value))
    (w : W) (lines : list string) (old1 old2 : value) :
  make_decision E self task people (State w (Some old1) lines)
  = make_decision E self task people (State w (Some old2) lines).
Proof. run_engine. reflexivity. Qed.

(** X5: nothing is rolled back on failure.  When the resource agent has
    the attribute and the priority analysis raises, the caller gets the
    degraded dict, and the attribute stays bound to the pool of the failed
    call, in the world the priority agent left. *)
Theorem handover_survives_failure {W} (E : environment W) (self : engine)
    (task : gmap string value) (people : option (list value)) (st : state W)
    (old : value) (e : exn) (w' : W) :
  available_people st = Some old ->
  analyze_priority E task (world st) = (Raise e, w') ->
  exists d st',
    make_decision E self task people st = (Ok d, st') /\
    d !! "error" = Some (VStr (exn_str e)) /\
    available_people st' = Some (VList (resolve_people people)) /\
    world st' = w'.
Proof.
  intros Hattr Hp.
  assert (cycle_fails E task (resolve_people people) (available_people st) (world st)
            e (handed_over (available_people st) (resolve_people people)) w') as Hf
    by (by apply priority_raises).
  destruct (make_decision_degrades E self _ _ _ _ _ _ Hf) as [more Hrun].
  do 2 eexists. split; [exact Hrun |]. rewrite Hattr. repeat split; reflexivity.
Qed.

(** A run of X5. *)
Lemma handover_survives_failure_witness :
  exists d st',
    make_decision Scenario.priority_fails (new_engine Scenario.priority_fails)
      Scenario.task_T1 (Some Scenario.one_person) Scenario.with_pool = (Ok d, st') /\
    d !! "error" = Some (VStr "'deadline'") /\
    available_people st' = Some (VList Scenario.one_person) /\
    world st' = 1%nat.
Proof.
  eapply (handover_survives_failure Scenario.priority_fails
            (new_engine Scenario.priority_fails) Scenario.task_T1
            (Some Scenario.one_person) Scenario.with_pool (VList [])
            (Exn "KeyError" "'deadline'") 1%nat); reflexivity.
Defined.

(** ** The degraded dict *)

(** X6: an [id] that is present is used as it is.  After a failed
    cycle, [task_id] is the very value stored under [id] (not its text,
    and not the sentinel, even when that value is [None]), and
    [decision_id] is ["DEC_"], the text of that value, and ["_ERROR"]. *)
Theorem present_id_is_kept_verbatim {W} (E : environment W) (self : engine)
    (task : gmap string value) (people : option (list value)) (st : state W)
    (v : value) e attr' w' :
  task !! "id" = Some v ->
  cycle_fails E task (resolve_people people) (available_people st) (world st) e attr' w' ->
  exists d st',
    make_decision E self task people st = (Ok d, st') /\
    d !! "task_id" = Some v /\
    d !! "decision_id" = Some (VStr ("DEC_" +:+ py_str E v +:+ "_ERROR")).
Proof.
  intros Hid Hf.
  destruct (make_decision_degrades E self _ _ _ _ _ _ Hf) as [more Hrun].
  do 2 eexists. split; [exact Hrun |].
  pose proof (degraded_lookup E self task e (isoformat_now E w')) as Hd.
  unfold dict_get in Hd. rewrite Hid in Hd. simpl in Hd.
  destruct Hd as (Hdec & Htask & _). by split.
Qed.

(** A run of X6: the task with the number 7 for its [id]. *)
Lemma present_id_is_kept_verbatim_witness :
  exists d st',
    make_decision Scenario.resources_fail (new_engine Scenario.resources_fail)
      Scenario.task_7 None Scenario.with_pool = (Ok d, st') /\
    d !! "task_id" = Some (VInt 7) /\
    d !! "decision_id" = Some (VStr "DEC_7_ERROR").
Proof.
  eapply (present_id_is_kept_verbatim Scenario.resources_fail
            (new_engine Scenario.resources_fail) Scenario.task_7 None
            Scenario.with_pool (VInt 7)).
  - reflexivity.
  - eapply resources_raise; reflexivity.
Defined.

(** X7: a coordinator that returns [None], a bool, an int, a float, a
    str or a list -- the values of the model other than a dict, none of
    which has an [update] method -- makes the cycle fail like one that
    raises: the call returns the degraded dict, whose [error] is the
    text of the [AttributeError] that [final_decision.update] raises on
    such an object. *)
Theorem non_dict_merge_degrades {W} (E : environment W) (self : engine)
    (task : gmap string value) (people : option (list value)) (st : state W)
    pr w1 rr attr' w2 kr w3 v w' :
  analyze_priority E task (world st) = (Ok pr, w1) ->
  find_suitable_resources E task
    (handed_over (available_people st) (resolve_people people), w1)
    = (Ok rr, (attr', w2)) ->
  assess_risks E task w2 = (Ok kr, w3) ->
  coordinate_decision E task (collected pr rr kr) w3 = (Ok v, w') ->
  (forall d, v <> VDict d) ->
  exists d st',
    make_decision E self task people st = (Ok d, st') /\
    d !! "error"
      = Some (VStr ("'" +:+ type_name v +:+ "' object has no attribute 'update'")) /\
    d !! "confidence" = Some (VFloat 0.1) /\
    d !! "risk_level" = Some (VStr "high") /\
    d !! "people_considered" = None.
Proof.
  intros Hp Hr Hk Hc Hv.
  pose proof (update_raises E task _ _ _ _ _ _ _ _ _ _ _ _ Hp Hr Hk Hc Hv) as Hf.
  destruct (make_decision_degrades E self _ _ _ _ _ _ Hf) as [more Hrun].
  do 2 eexists. split; [exact Hrun |]. repeat split; reflexivity.
Qed.

(** A run of X7: the coordinator returns [None]. *)
Lemma non_dict_merge_degrades_witness :
  exists d st',
    make_decision Scenario.merge_returns_None (new_engine Scenario.merge_returns_None)
      Scenario.task_T1 None Scenario.with_pool = (Ok d, st') /\
    d !! "error" = Some (VStr "'NoneType' object has no attribute 'update'") /\
    d !! "confidence" = Some (VFloat 0.1) /\
    d !! "risk_level" = Some (VStr "high") /\
    d !! "people_considered" = None.
Proof.
  eapply (non_dict_merge_degrades Scenario.merge_returns_None
            (new_engine Scenario.merge_returns_None) Scenario.task_T1 None
            Scenario.with_pool) with (v := VNone); try reflexivity.
  discriminate.
Defined.

(** X8: the degraded dict has a fixed shape.  Whatever the task and the
    failure, it has exactly the nine keys of the [except] clause, the
    same recommendation and the same placeholder assignee, and
    [created_at] is the clock as the failing step left it. *)
Theorem degraded_decision_shape {W} (E : environment W) (self : engine)
    (task : gmap string value) (people : option (list value)) (st : state W)
    e attr' w' :
  cycle_fails E task (resolve_people people) (available_people st) (world st) e attr' w' ->
  exists d st',
    make_decision E self task people st = (Ok d, st') /\
    dom d = degraded_keys /\
    d !! "recommendation" = Some (VStr "群體決策失敗，建議人工評估") /\
    d !! "assigned_to" = Some (VStr "待分配") /\
    d !! "swarm_engine" = Some (VStr (name self)) /\
    d !! "created_at" = Some (VStr (isoformat_now E w')) /\
    world st' = w' /\
    available_people st' = attr'.
Proof.
  intros Hf.
  destruct (make_decision_degrades E self _ _ _ _ _ _ Hf) as [more Hrun].
  do 2 eexists. split; [exact Hrun |].
  split; [| repeat split; reflexivity].
  unfold degraded, dict_display, degraded_keys. simpl.
  rewrite !dom_insert_L, dom_empty_L. set_solver.
Qed.

(** A run of X8: the resource agent is the second collaborator asked, so
    the clock shows two seconds. *)
Lemma degraded_decision_shape_witness :
  exists d st',
    make_decision Scenario.resources_fail (new_engine Scenario.resources_fail)
      Scenario.task_T1 None Scenario.with_pool = (Ok d, st') /\
    dom d = degraded_keys /\
    d !! "recommendation" = Some (VStr "群體決策失敗，建議人工評估") /\
    d !! "assigned_to" = Some (VStr "待分配") /\
    d !! "swarm_engine" = Some (VStr "Swarm Decision Engine") /\
    d !! "created_at" = Some (VStr "2024-05-01T09:00:02") /\
    world st' = 2%nat /\
    available_people st' = Some (VList _get_default_people).
Proof.
  eapply (degraded_decision_shape Scenario.resources_fail
            (new_engine Scenario.resources_fail) Scenario.task_T1 None
            Scenario.with_pool (Exn "ValueError" "")
            (Some (VList _get_default_people)) 2%nat).
  eapply resources_raise; reflexivity.
Defined.

(** ** What is printed *)

Lemma confidence_after_attach (self : engine) (people : list value)
    (d : gmap string value) (default : value) :
  dict_get (dict_update d (engine_metadata self people)) "confidence" default
  = dict_get d "confidence" default.
Proof.
  unfold dict_get. rewrite update_lookup_old; [reflexivity |].
  apply metadata_frame. unfold metadata_keys. intros Hk.
  repeat (apply elem_of_cons in Hk as [Hk | Hk]; [discriminate |]).
  by apply elem_of_nil in Hk.
Qed.

(** X9: a successful call adds six lines to the console and touches none
    of the earlier ones: the five progress lines, the first naming the
    task by its [id] or by ["unknown"], and a closing line with the
    confidence the coordinator gave, or ["N/A"] when it gave none. *)
Theorem success_transcript {W} (E : environment W) (self : engine)
    (task : gmap string value) (people : option (list value)) (st : state W)
    d0 attr' w' :
  cycle_succeeds E task (resolve_people people) (available_people st) (world st) d0 attr' w' ->
  exists d st',
    make_decision E self task people st = (Ok d, st') /\
    console st'
    = (console st ++ progress_lines E task ++
       ["✅ 決策完成，信心指數: " +:+ py_str E (dict_get d0 "confidence" (VStr "N/A"))])%list.
Proof.
  intros [pr w1 rr ? w2 kr w3 ? ? Hp Hr Hk Hc].
  destruct st as [w attr lines]. do 2 eexists.
  destruct attr as [old |]; run_engine;
    rewrite Hp; simpl; rewrite Hr; simpl; rewrite Hk; simpl; rewrite Hc; simpl;
    (split; [reflexivity |]); simpl;
    rewrite confidence_after_attach, <- !app_assoc; reflexivity.
Qed.

(** A run of X9. *)
Lemma success_transcript_witness :
  exists d st',
    make_decision Scenario.all_answer (new_engine Scenario.all_answer)
      Scenario.task_7 (Some []) Scenario.with_pool = (Ok d, st') /\
    console st'
    = [ "🎯 開始為任務 7 進行群體決策";
        "📊 執行優先權分析...";
        "👤 執行資源配對分析...";
        "⚠️ 執行風險評估...";
        "🤝 執行協調決策...";
        "✅ 決策完成，信心指數: <object>" ].
Proof.
  eapply (success_transcript Scenario.all_answer (new_engine Scenario.all_answer)
            Scenario.task_7 (Some []) Scenario.with_pool Scenario.merged_T1).
  eapply cycle_ok; reflexivity.
Defined.

(** X10: the console tells which step failed.  A failed call prints the
    progress lines of the steps it reached and then one line with the
    text of the exception, never a closing line, and leaves earlier lines
    alone: two progress lines when [analyze_priority] raised, three when
    [find_suitable_resources] raised, four when [assess_risks] raised,
    and all five when the coordinator raised or returned a value that is
    not a dict. *)
Theorem failure_transcript {W} (E : environment W) (self : engine)
    (task : gmap string value) (people : option (list value)) (st : state W) :
  let handed := handed_over (available_people st) (resolve_people people) in
  (forall e w',
     analyze_priority E task (world st) = (Raise e, w') ->
     prints_then_degrades E self task people st 2 e) /\
  (forall pr w1 e attr' w',
     analyze_priority E task (world st) = (Ok pr, w1) ->
     find_suitable_resources E task (handed, w1) = (Raise e, (attr', w')) ->
     prints_then_degrades E self task people st 3 e) /\
  (forall pr w1 rr attr' w2 e w',
     analyze_priority E task (world st) = (Ok pr, w1) ->
     find_suitable_resources E task (handed, w1) = (Ok rr, (attr', w2)) ->
     assess_risks E task w2 = (Raise e, w') ->
     prints_then_degrades E self task people st 4 e) /\
  (forall pr w1 rr attr' w2 kr w3 e w',
     analyze_priority E task (world st) = (Ok pr, w1) ->
     find_suitable_resources E task (handed, w1) = (Ok rr, (attr', w2)) ->
     assess_risks E task w2 = (Ok kr, w3) ->
     coordinate_decision E task (collected pr rr kr) w3 = (Raise e, w') ->
     prints_then_degrades E self task people st 5 e) /\
  (forall pr w1 rr attr' w2 kr w3 v w',
     analyze_priority E task (world st) = (Ok pr, w1) ->
     find_suitable_resources E task (handed, w1) = (Ok rr, (attr', w2)) ->
     assess_risks E task w2 = (Ok kr, w3) ->
     coordinate_decision E task (collected pr rr kr) w3 = (Ok v, w') ->
     (forall d, v <> VDict d) ->
     prints_then_degrades E self task people st 5 (AttributeError_update v)).
Proof.
  destruct st as [w attr lines]. unfold prints_then_degrades. simpl.
  split; [| split; [| split; [| split]]].
  - intros e w' Hp.
    destruct attr as [old |]; run_engine; rewrite Hp; simpl;
      rewrite <- !app_assoc; by do 2 eexists.
  - intros pr w1 e attr' w' Hp Hr.
    destruct attr as [old |]; run_engine; rewrite Hp; simpl; rewrite Hr; simpl;
      rewrite <- !app_assoc; by do 2 eexists.
  - intros pr w1 rr attr' w2 e w' Hp Hr Hk.
    destruct attr as [old |]; run_engine; rewrite Hp; simpl; rewrite Hr; simpl;
      rewrite Hk; simpl; rewrite <- !app_assoc; by do 2 eexists.
  - intros pr w1 rr attr' w2 kr w3 e w' Hp Hr Hk Hc.
    destruct attr as [old |]; run_engine; rewrite Hp; simpl; rewrite Hr; simpl;
      rewrite Hk; simpl; rewrite Hc; simpl; rewrite <- !app_assoc; by do 2 eexists.
  - intros pr w1 rr attr' w2 kr w3 v w' Hp Hr Hk Hc Hv.
    destruct attr as [old |]; run_engine; rewrite Hp; simpl; rewrite Hr; simpl;
      rewrite Hk; simpl; rewrite Hc; simpl;
      (destruct v; try (by exfalso; eapply Hv)); simpl;
      rewrite <- !app_assoc; by do 2 eexists.
Qed.

(** A run of X10: the resource agent raises, and three progress lines
    come before the line of the handler. *)
Lemma failure_transcript_witness :
  exists d st',
    make_decision Scenario.resources_fail (new_engine Scenario.resources_fail)
      ∅ None Scenario.with_pool = (Ok d, st') /\
    console st'
    = [ "🎯 開始為任務 unknown 進行群體決策";
        "📊 執行優先權分析...";
        "👤 執行資源配對分析...";
        "❌ 決策過程發生錯誤: " ].
Proof.
  exact (proj1 (proj2 (failure_transcript Scenario.resources_fail
                         (new_engine Scenario.resources_fail) ∅ None
                         Scenario.with_pool))
           (VDict (dict_display [("priority_score", VInt 3)])) 1%nat
           (Exn "ValueError" "") (Some (VList _get_default_people)) 2%nat
           eq_refl eq_refl).
Defined.

(** ** Counting people that were never handed over *)

(** X12: [people_considered] is the length of the caller's list, whether
    or not the list reached the resource agent.  With a resource agent
    that has no [available_people], [find_suitable_resources] runs
    without a pool and a successful cycle still reports the full
    count. *)
Theorem people_counted_without_handover {W} (E : environment W) (self : engine)
    (task : gmap string value) (people : option (list value))
    (w : W) (lines : list string) d0 attr' w' :
  cycle_succeeds E task (resolve_people people) None w d0 attr' w' ->
  let run := make_decision (observing E) self task people (State (w, []) None lines) in
  (world run.2).2 = [None] /\
  exists d,
    run.1 = Ok d /\
    d !! "people_considered"
      = Some (VInt (Z.of_nat (length (resolve_people people)))).
Proof.
  intros Hs run. split.
  - unfold run. rewrite observing_log.
    destruct Hs as [pr w1 ? ? ? ? ? ? ? Hp _ _ _]. by rewrite Hp.
  - pose proof (observing_erase E self task people (State (w, []) None lines)) as Herase.
    fold run in Herase. unfold forget_log in Herase. simpl in Herase.
    destruct (make_decision_succeeds E self task people (State w None lines) _ _ _ Hs)
      as [more Hrun].
    rewrite Hrun in Herase. injection Herase as Hd _.
    eexists. split; [symmetry; exact Hd |]. by apply update_lookup_new.
Qed.

(** A run of X12. *)
Lemma people_counted_without_handover_witness :
  let run :=
    make_decision (observing Scenario.all_answer) (new_engine Scenario.all_answer)
      Scenario.task_T1 None (State (0%nat, []) None []) in
  (world run.2).2 = [None] /\
  exists d, run.1 = Ok d /\ d !! "people_considered" = Some (VInt 4).
Proof.
  eapply (people_counted_without_handover Scenario.all_answer
            (new_engine Scenario.all_answer) Scenario.task_T1 None 0%nat []
            Scenario.merged_T1).
  eapply cycle_ok; reflexivity.
Defined.

(** * The concrete machine

    ** It agrees with the first machine *)




Ltac run_concrete :=
  unfold Concrete.make_decision, Concrete.try_except, Concrete.make_decision_try,
    Concrete.make_decision_except, Concrete.bind, Concrete.call,
    Concrete.call_resource, Concrete.hasattr_available_people,
    Concrete.set_available_people, Concrete.print, Concrete.ret, Concrete.raise,
    Concrete.attach_metadata, Concrete.len, Concrete.datetime_now_isoformat,
    Concrete._get_default_people, Concrete.error_line, Concrete.forget_log in *;
  simpl in *.


(** ** What [make_decision] catches and what it lets out *)




(** ** The list the resource agent is handed *)

Section ConcreteHandover.

Context {W : Type} (D : Concrete.environment W).

Ltac step_by_step :=
  change (Concrete.py_str (Concrete.observing D)) with (Concrete.py_str D);
  repeat (simpl;
    match goal with
    | |- context [Concrete.stdout_write D ?line ?w] =>
        destruct (Concrete.stdout_write D line w) as [? |]
    | |- context [Concrete.analyze_priority D ?task ?w] =>
        destruct (Concrete.analyze_priority D task w) as [[? | ?] ?]
    | |- context [Concrete.find_suitable_resources D ?task ?ahw] =>
        destruct (Concrete.find_suitable_resources D task ahw) as [[? | ?] [? ?]]
    | |- context [Concrete.assess_risks D ?task ?w] =>
        destruct (Concrete.assess_risks D task w) as [[? | ?] ?]
    | |- context [Concrete.coordinate_decision D ?task ?res ?w] =>
        destruct (Concrete.coordinate_decision D task res w) as [[[] | ?] ?]
    | |- context [match ?r with Concrete.Exception _ => _ | Concrete.BaseException _ => _ end] =>
        is_var r; destruct r
    end).

(** Recording changes nothing of what the engine does. *)
Lemma concrete_observing_erase (self : engine) (task : gmap string value)
    (people : option nat)
    (m : Concrete.machine (W * list (option Concrete.slot * option (list value)))) :
  let run := Concrete.make_decision (Concrete.observing D) self task people m in
  Concrete.make_decision D self task people (Concrete.forget_log m)
  = (run.1, Concrete.forget_log run.2).
Proof.
  destruct m as [[w seen] h attr lines].
  destruct people as [address |], attr as [old |]; run_concrete;
    step_by_step; reflexivity.
Qed.

(** One cycle records at most one reading, and it is the expected one. *)
Lemma concrete_observing_log (self : engine) (task : gmap string value)
    (people : option nat) (w : W) (h : list (list value))
    (attr : option Concrete.slot) (lines : list string) :
  let run :=
    Concrete.make_decision (Concrete.observing D) self task people
      (Concrete.Machine (w, []) h attr lines) in
  (Concrete.world run.2).2 = [] \/
  (Concrete.world run.2).2 = [to_be_found h attr people].
Proof.
  destruct people as [address |], attr as [old |]; run_concrete;
    step_by_step; rewrite ?list_lookup_middle by reflexivity; auto.
Qed.

(** The engine creates a list only when [people] is missing. *)
Lemma concrete_heap_after (self : engine) (task : gmap string value)
    (people : option nat) (m : Concrete.machine W) :
  Concrete.heap (Concrete.make_decision D self task people m).2
  = match people with
    | Some _ => Concrete.heap m
    | None => (Concrete.heap m ++ [_get_default_people])%list
    end.
Proof.
  destruct m as [w h attr lines].
  destruct people as [address |], attr as [old |]; run_concrete;
    step_by_step; reflexivity.
Qed.

(** With a [sys.stdout] that accepts every line and a priority analysis
    that returns, the resource agent is called. *)
Lemma concrete_observing_called (self : engine) (task : gmap string value)
    (people : option nat) (w : W) (h : list (list value))
    (attr : option Concrete.slot) (lines : list string) pr w1 :
  (forall line w0, Concrete.stdout_write D line w0 = None) ->
  Concrete.analyze_priority D task w = (Concrete.Returns pr, w1) ->
  let run :=
    Concrete.make_decision (Concrete.observing D) self task people
      (Concrete.Machine (w, []) h attr lines) in
  (Concrete.world run.2).2 = [to_be_found h attr people].
Proof.
  intros Haccept Hp.
  destruct people as [address |], attr as [old |]; run_concrete;
    change (Concrete.py_str (Concrete.observing D)) with (Concrete.py_str D);
    repeat (simpl;
      first
        [ rewrite Haccept
        | rewrite Hp
        | match goal with
          | |- context [Concrete.find_suitable_resources D ?task ?ahw] =>
              destruct (Concrete.find_suitable_resources D task ahw)
                as [[? | [? | ?]] [? ?]]
          | |- context [Concrete.assess_risks D ?task ?w] =>
              destruct (Concrete.assess_risks D task w) as [[? | [? | ?]] ?]
          | |- context [Concrete.coordinate_decision D ?task ?res ?w] =>
              destruct (Concrete.coordinate_decision D task res w)
                as [[[] | [? | ?]] ?]
          end ]);
    rewrite ?list_lookup_middle by reflexivity; reflexivity.
Qed.

End ConcreteHandover.

(** C8, as the code has it.  In a cycle that starts with a resource agent
    that has an [available_people] attribute, the engine binds the
    attribute to the pool of the call -- a reference to the caller's own
    list object, or to the list that [_get_default_people] has just
    built; it makes no copy, and for an explicit pool it creates no list
    at all -- before [find_suitable_resources] runs; the call is made at
    most once in a cycle and, when it is made, that reference and that
    list are what it finds.  When the agent has no such attribute the
    engine writes nothing and the call finds none.  With a
    [sys.stdout] that accepts every line and a priority analysis that
    returns, the call is made. *)
Theorem resource_fit_reads_callers_list {W} (D : Concrete.environment W)
    (self : engine) (task : gmap string value) (people : option nat)
    (w : W) (h : list (list value)) (attr : option Concrete.slot)
    (lines : list string) :
  let run :=
    Concrete.make_decision (Concrete.observing D) self task people
      (Concrete.Machine (w, []) h attr lines) in
  Concrete.make_decision D self task people (Concrete.Machine w h attr lines)
    = (run.1, Concrete.forget_log run.2) /\
  ((Concrete.world run.2).2 = [] \/
   (Concrete.world run.2).2 = [to_be_found h attr people]) /\
  Concrete.heap run.2
    = match people with
      | Some _ => h
      | None => (h ++ [_get_default_people])%list
      end /\
  ((forall line w0, Concrete.stdout_write D line w0 = None) ->
   (exists pr w1, Concrete.analyze_priority D task w = (Concrete.Returns pr, w1)) ->
   (Concrete.world run.2).2 = [to_be_found h attr people]).
Proof.
  intros run. split; [| split; [| split]].
  - apply (concrete_observing_erase D self task people
             (Concrete.Machine (w, []) h attr lines)).
  - apply concrete_observing_log.
  - unfold run. rewrite concrete_heap_after. reflexivity.
  - intros Haccept (pr & w1 & Hp).
    by eapply concrete_observing_called.
Qed.

(** A run of C8: the caller's list of one person is at address 0, and
    that is where the resource agent finds it. *)
Lemma resource_fit_reads_callers_list_witness :
  let run :=
    Concrete.make_decision (Concrete.observing (concretize Scenario.all_answer))
      (new_engine Scenario.all_answer) Scenario.task_T1 (Some 0%nat)
      (Concrete.Machine (0%nat, []) [Scenario.one_person]
         (Some (Concrete.Val (VList []))) []) in
  (Concrete.world run.2).2
  = [(Some (Concrete.Ref 0), Some Scenario.one_person)].
Proof.
  eapply (proj2 (proj2 (proj2 (resource_fit_reads_callers_list
            (concretize Scenario.all_answer) (new_engine Scenario.all_answer)
            Scenario.task_T1 (Some 0%nat) 0%nat [Scenario.one_person]
            (Some (Concrete.Val (VList []))) [])))).
  - reflexivity.
  - do 2 eexists. reflexivity.
Defined.
